(** * golfstar-booker: the availability pipeline

    A shallow embedding of the tee-time availability pipeline of
    golfstar-booker:

    - [golfstar_booker/models/teetime.py] and [models/course.py]: the
      pydantic records,
    - [golfstar_booker/api/client.py]: [is_competition_time] and
      [GolfstarAPIClient.get_available_times],
    - [golfstar_booker/cli/app.py]: [parse_datetime_arg],
      [get_courses_by_criteria] and the [availability] command up to the
      point where the tee times are handed to the table renderer.

    Python values are modelled by the inductive [value]; a raised exception
    is the [Raise] constructor of [Exc].  What the program only calls and
    does not define (pydantic's coercions, [str.lower], [dateutil], the time
    zone database, the HTTP server) is a type class or an argument, so every
    general statement holds whatever those do; the closed examples use the
    reference instances of the section "Reference instances". *)

From Stdlib Require Import ZArith QArith String Ascii List Permutation Sorted Lia.
From stdpp Require Import base option list strings gmap pretty.

#[local] Set Warnings "-register-all".

Local Open Scope string_scope.
Local Open Scope Z_scope.
Local Open Scope list_scope.

(** ** Exceptions *)

(** The exception classes that the modelled code raises or catches.  All of
    them derive from [Exception]; [HTTPStatusError] and [TransportError]
    also derive from [httpx.HTTPError]. *)
Inductive exn : Type :=
| TypeError
| AttributeError
| ValidationError
| JSONDecodeError
| HTTPStatusError (status_code : Z)
| TransportError.

Inductive Exc (A : Type) : Type :=
| Ok (a : A)
| Raise (e : exn).
Arguments Ok {A} a.
Arguments Raise {A} e.

#[global] Instance Exc_ret : MRet Exc := λ A a, Ok a.
#[global] Instance Exc_bind : MBind Exc :=
  λ A B f m, match m with Ok a => f a | Raise e => Raise e end.
#[global] Instance Exc_fmap : FMap Exc :=
  λ A B f m, match m with Ok a => Ok (f a) | Raise e => Raise e end.

(** [isinstance(e, httpx.HTTPError)] *)
Definition is_HTTPError (e : exn) : bool :=
  match e with
  | HTTPStatusError _ | TransportError => true
  | _ => false
  end.

(** ** Dates and times *)

(** A [tzinfo] object: a fixed offset from UTC in microseconds (what
    [datetime.timezone], pydantic's [TzInfo] and dateutil's [tzoffset] are),
    or an IANA zone looked up by key ([zoneinfo.ZoneInfo]). *)
Inductive tzinfo : Type :=
| FixedOffset (offset : Z)
| ZoneInfo (key : string).

#[global] Instance tzinfo_eq_dec : EqDecision tzinfo.
Proof. solve_decision. Defined.

(** A [datetime.datetime]: the wall-clock reading, counted in microseconds
    from 1970-01-01T00:00:00 on the same wall clock, and the attached
    [tzinfo] ([None] for a naive value). *)
Record datetime : Type := { wall : Z; tz : option tzinfo }.

(** The time zone database: the UTC offset (microseconds) that the zone
    [key] assigns to a wall-clock reading. *)
Class TzDatabase : Type := { zone_utcoffset : string → Z → Z }.

Definition utcoffset `{TzDatabase} (z : tzinfo) (w : Z) : Z :=
  match z with
  | FixedOffset o => o
  | ZoneInfo key => zone_utcoffset key w
  end.

(** [a < b] on datetimes.  Two naive values compare by wall clock; two aware
    values with the same [tzinfo] compare by wall clock, otherwise by UTC
    instant; a naive and an aware value do not compare. *)
Definition datetime_lt `{TzDatabase} (a b : datetime) : Exc bool :=
  match tz a, tz b with
  | None, None => Ok (wall a <? wall b)
  | Some za, Some zb =>
      if decide (za = zb) then Ok (wall a <? wall b)
      else Ok (wall a - utcoffset za (wall a) <? wall b - utcoffset zb (wall b))
  | _, _ => Raise TypeError
  end.

(** [a < b] where either side may be [None], as for [TeeTime.from_time]:
    [None] supports no ordering at all. *)
Definition optional_datetime_lt `{TzDatabase} (a b : option datetime) : Exc bool :=
  match a, b with
  | Some x, Some y => datetime_lt x y
  | _, _ => Raise TypeError
  end.

(** [dt.astimezone(timezone.utc)] for an aware [dt]. *)
Definition astimezone_utc `{TzDatabase} (dt : datetime) : datetime :=
  match tz dt with
  | Some z => {| wall := wall dt - utcoffset z (wall dt); tz := Some (FixedOffset 0) |}
  | None => dt
  end.

Definition microseconds_per_day : Z := 86400000000.

(** [datetime.combine(d, t)], [d] a day number and [t] a time of day in
    microseconds; the result is naive. *)
Definition datetime_combine (d t : Z) : datetime :=
  {| wall := d * microseconds_per_day + t; tz := None |}.

(** [dt.date()] as a day number. *)
Definition datetime_date (dt : datetime) : Z := wall dt / microseconds_per_day.

(** [time.min] and [time(23, 59, 59)] *)
Definition time_min : Z := 0.
Definition time_23_59_59 : Z := ((23 * 60 + 59) * 60 + 59) * 1000000.

(** A datetime whose [tzinfo] is absent or a fixed offset. *)
Definition fixed_offset (dt : datetime) : Prop :=
  match tz dt with
  | Some (ZoneInfo _) => False
  | _ => True
  end.

(** ** The domain model: models/teetime.py and models/course.py *)

(** [decimal.Decimal]: coefficient and exponent. *)
Record decimal : Type := { coefficient : Z; exponent : Z }.

Module Money.
Record t : Type := {
  amount : option decimal;
  currency : option string;
  formatted : option string
}.
End Money.

Module TeeTimeCourse.
Record t : Type := {
  id : Z;
  uuid : string;
  name : string;
  club_name : option string
}.
End TeeTimeCourse.

Module TeeTimeCategory.
Record t : Type := {
  id : option Z;
  name : option string;
  uuid : option string;
  description : option string;
  color : option string;
  is_use_same_name : option bool;
  custom_name : option string;
  custom_description : option string;
  display : option string;
  tee_time_bookable : option bool
}.
End TeeTimeCategory.

Module Space.
Record t : Type := {
  id : option Z;
  uuid : option string;
  name : option string
}.
End Space.

Module TeeTime.
Record t : Type := {
  id : option Z;
  uuid : string;
  from_time : option datetime;
  to_time : option datetime;
  interval : option Z;
  available_slots : option Z;
  max_slots : option Z;
  price : option Money.t;
  price_per_extra_player : option Z;
  notes : option string;
  is_prime_time : bool;
  category : option TeeTimeCategory.t;
  space : option Space.t;
  course : option TeeTimeCourse.t;
  created_at : option datetime;
  updated_at : option datetime;
  players : option Z
}.

(** The assignment [tt.course = c] (pydantic does not validate
    assignments unless asked to). *)
Definition set_course (tt : t) (c : option TeeTimeCourse.t) : t :=
  {| id := id tt; uuid := uuid tt; from_time := from_time tt;
     to_time := to_time tt; interval := interval tt;
     available_slots := available_slots tt; max_slots := max_slots tt;
     price := price tt; price_per_extra_player := price_per_extra_player tt;
     notes := notes tt; is_prime_time := is_prime_time tt;
     category := category tt; space := space tt; course := c;
     created_at := created_at tt; updated_at := updated_at tt;
     players := players tt |}.
End TeeTime.

Module Club.
Record t : Type := {
  id : Z;
  uuid : string;
  name : string;
  slug : string;
  terms_url : option string
}.
End Club.

(** Of the attributes of [Course] the pipeline reads [id], [uuid], [club]
    and [name]; the remaining ones are never inspected and are left out. *)
Module Course.
Record t : Type := {
  id : Z;
  uuid : string;
  club : Club.t;
  name : string
}.
End Course.

(** ** Python values *)

(** What [response.json()] returns, and what the items hold once
    [get_available_times] has stored model instances in them.  A float is
    given by its exact rational value, a str by its UTF-8 text, a dict by
    the list of its items. *)
Inductive value : Type :=
| VNone
| VBool (b : bool)
| VInt (z : Z)
| VFloat (q : Q)
| VStr (s : string)
| VList (items : list value)
| VDict (items : list (string * value))
| VMoney (m : Money.t)
| VTeeTimeCourse (c : TeeTimeCourse.t).

Abbreviation dict := (list (string * value)).

(** [d[k]], [None] standing for [KeyError]; also [k in d]. *)
Fixpoint dict_lookup (k : string) (d : dict) : option value :=
  match d with
  | [] => None
  | (k', v) :: rest => if String.eqb k k' then Some v else dict_lookup k rest
  end.

(** [d.get(k, default)] *)
Definition dict_get (d : dict) (k : string) (default : value) : value :=
  match dict_lookup k d with
  | Some v => v
  | None => default
  end.

(** [d[k] = v] *)
Fixpoint dict_set (k : string) (v : value) (d : dict) : dict :=
  match d with
  | [] => [(k, v)]
  | (k', v') :: rest =>
      if String.eqb k k' then (k, v) :: rest else (k', v') :: dict_set k v rest
  end.

(** [v.get(k, default)] on an arbitrary value: only a dict has [get]. *)
Definition value_get (v : value) (k : string) (default : value) : Exc value :=
  match v with
  | VDict d => Ok (dict_get d k default)
  | _ => Raise AttributeError
  end.

(** [needle in hay] on two strs. *)
Fixpoint is_infix (needle hay : string) : bool :=
  String.prefix needle hay
  || match hay with
     | EmptyString => false
     | String _ rest => is_infix needle rest
     end.

(** Truth value of [v], as [if v:] and [not v] take it. *)
Definition truthy (v : value) : bool :=
  match v with
  | VNone => false
  | VBool b => b
  | VInt z => negb (z =? 0)
  | VFloat q => negb (Qeq_bool q 0)
  | VStr s => negb (String.eqb s "")
  | VList l => match l with [] => false | _ => true end
  | VDict d => match d with [] => false | _ => true end
  | VMoney _ | VTeeTimeCourse _ => true
  end.

(** The number a value denotes, for the values that are numbers ([bool]
    is a subclass of [int]). *)
Definition number_of (v : value) : option Q :=
  match v with
  | VBool b => Some (inject_Z (if b then 1 else 0))
  | VInt z => Some (inject_Z z)
  | VFloat q => Some q
  | _ => None
  end.

(** [v >= n] for an int [n]. *)
Definition value_ge_int (v : value) (n : Z) : Exc bool :=
  match number_of v with
  | Some q => Ok (Qle_bool (inject_Z n) q)
  | None => Raise TypeError
  end.

(** ** What the program calls and does not define *)

(** [str.lower] *)
Class StrMethods : Type := { str_lower : string → string }.

(** pydantic's validation of a value against a field of type [int], [str],
    [bool], [datetime] and [Decimal] ([None] when it reports an error).
    Three facts about it are used: an [int] is a valid [int], a [str] is a
    valid [str], and a validated [datetime] is naive or carries a fixed
    offset. *)
Class Pydantic : Type := {
  validate_int : value → option Z;
  validate_str : value → option string;
  validate_bool : value → option bool;
  validate_datetime : value → option datetime;
  validate_decimal : value → option decimal;
  validate_int_int : ∀ z, validate_int (VInt z) = Some z;
  validate_str_str : ∀ s, validate_str (VStr s) = Some s;
  validate_datetime_fixed : ∀ v dt, validate_datetime v = Some dt → fixed_offset dt
}.

(** [dateutil.parser.parse] and [datetime.strptime(s, "%Y-%m-%d").date()]
    ([None] when they raise). *)
Class DateParsers : Type := {
  dateutil_parse : string → option datetime;
  strptime_date : string → option Z
}.

(** ** Construction of the models from keyword arguments *)

Section Models.
Context `{Pydantic}.

Definition validated {A} (validate : value → option A) (v : value) : Exc A :=
  match validate v with
  | Some a => Ok a
  | None => Raise ValidationError
  end.

(** [field: T] *)
Definition required_field {A} (validate : value → option A)
    (kwargs : dict) (k : string) : Exc A :=
  match dict_lookup k kwargs with
  | Some v => validated validate v
  | None => Raise ValidationError
  end.

(** [field: Optional[T] = default], given the argument passed for it *)
Definition optional_value {A} (validate : value → option A)
    (arg : option value) (default : option A) : Exc (option A) :=
  match arg with
  | None => Ok default
  | Some VNone => Ok None
  | Some v => Some <$> validated validate v
  end.

Definition optional_field {A} (validate : value → option A)
    (kwargs : dict) (k : string) (default : option A) : Exc (option A) :=
  optional_value validate (dict_lookup k kwargs) default.

(** [field: T = default] *)
Definition defaulted_field {A} (validate : value → option A)
    (kwargs : dict) (k : string) (default : A) : Exc A :=
  match dict_lookup k kwargs with
  | Some v => validated validate v
  | None => Ok default
  end.

(** [Field(alias=...)] under [populate_by_name]: the alias, else the name. *)
Definition aliased (alias name : string) (kwargs : dict) : option value :=
  match dict_lookup alias kwargs with
  | Some v => Some v
  | None => dict_lookup name kwargs
  end.

(** A field whose type is a model: an instance is taken as it is, a dict is
    validated against the model. *)
Definition validate_model {M} (instance : value → option M)
    (init : dict → Exc M) (v : value) : option M :=
  match instance v with
  | Some m => Some m
  | None =>
      match v with
      | VDict d => match init d with Ok m => Some m | Raise _ => None end
      | _ => None
      end
  end.

Definition Money_init (kwargs : dict) : Exc Money.t :=
  amount ← optional_field validate_decimal kwargs "amount" None;
  currency ← optional_field validate_str kwargs "currency" None;
  formatted ← optional_field validate_str kwargs "formatted" None;
  Ok {| Money.amount := amount; Money.currency := currency;
        Money.formatted := formatted |}.

Definition TeeTimeCourse_init (kwargs : dict) : Exc TeeTimeCourse.t :=
  id ← required_field validate_int kwargs "id";
  uuid ← required_field validate_str kwargs "uuid";
  name ← required_field validate_str kwargs "name";
  club_name ← optional_field validate_str kwargs "club_name" None;
  Ok {| TeeTimeCourse.id := id; TeeTimeCourse.uuid := uuid;
        TeeTimeCourse.name := name; TeeTimeCourse.club_name := club_name |}.

Definition TeeTimeCategory_init (kwargs : dict) : Exc TeeTimeCategory.t :=
  id ← optional_field validate_int kwargs "id" None;
  name ← optional_field validate_str kwargs "name" None;
  uuid ← optional_field validate_str kwargs "uuid" None;
  description ← optional_field validate_str kwargs "description" None;
  color ← optional_field validate_str kwargs "color" None;
  is_use_same_name ← optional_field validate_bool kwargs "is_use_same_name" None;
  custom_name ← optional_field validate_str kwargs "custom_name" None;
  custom_description ← optional_field validate_str kwargs "custom_description" None;
  display ← optional_field validate_str kwargs "display" None;
  tee_time_bookable ← optional_field validate_bool kwargs "tee_time_bookable" None;
  Ok {| TeeTimeCategory.id := id; TeeTimeCategory.name := name;
        TeeTimeCategory.uuid := uuid;
        TeeTimeCategory.description := description;
        TeeTimeCategory.color := color;
        TeeTimeCategory.is_use_same_name := is_use_same_name;
        TeeTimeCategory.custom_name := custom_name;
        TeeTimeCategory.custom_description := custom_description;
        TeeTimeCategory.display := display;
        TeeTimeCategory.tee_time_bookable := tee_time_bookable |}.

Definition Space_init (kwargs : dict) : Exc Space.t :=
  id ← optional_field validate_int kwargs "id" None;
  uuid ← optional_field validate_str kwargs "uuid" None;
  name ← optional_field validate_str kwargs "name" None;
  Ok {| Space.id := id; Space.uuid := uuid; Space.name := name |}.

Definition Money_instance (v : value) : option Money.t :=
  match v with VMoney m => Some m | _ => None end.

Definition TeeTimeCourse_instance (v : value) : option TeeTimeCourse.t :=
  match v with VTeeTimeCourse c => Some c | _ => None end.

(** [TeeTime] called with the items of [kwargs] as keyword arguments; keys
    that name no field are ignored. *)
Definition TeeTime_init (kwargs : dict) : Exc TeeTime.t :=
  id ← optional_field validate_int kwargs "id" None;
  uuid ← required_field validate_str kwargs "uuid";
  from_time ← optional_value validate_datetime (aliased "from" "from_time" kwargs) None;
  to_time ← optional_value validate_datetime (aliased "to" "to_time" kwargs) None;
  interval ← optional_field validate_int kwargs "interval" None;
  available_slots ← optional_field validate_int kwargs "available_slots" (Some 0);
  max_slots ← optional_field validate_int kwargs "max_slots" (Some 0);
  price ← optional_field (validate_model Money_instance Money_init) kwargs "price" None;
  price_per_extra_player ← optional_field validate_int kwargs "price_per_extra_player" None;
  notes ← optional_field validate_str kwargs "notes" None;
  is_prime_time ← defaulted_field validate_bool kwargs "is_prime_time" false;
  category ← optional_field (validate_model (λ _, None) TeeTimeCategory_init) kwargs "category" None;
  space ← optional_field (validate_model (λ _, None) Space_init) kwargs "space" None;
  course ← optional_field (validate_model TeeTimeCourse_instance TeeTimeCourse_init) kwargs "course" None;
  created_at ← optional_field validate_datetime kwargs "created_at" None;
  updated_at ← optional_field validate_datetime kwargs "updated_at" None;
  players ← optional_field validate_int kwargs "players" None;
  Ok {| TeeTime.id := id; TeeTime.uuid := uuid; TeeTime.from_time := from_time;
        TeeTime.to_time := to_time; TeeTime.interval := interval;
        TeeTime.available_slots := available_slots;
        TeeTime.max_slots := max_slots; TeeTime.price := price;
        TeeTime.price_per_extra_player := price_per_extra_player;
        TeeTime.notes := notes; TeeTime.is_prime_time := is_prime_time;
        TeeTime.category := category; TeeTime.space := space;
        TeeTime.course := course; TeeTime.created_at := created_at;
        TeeTime.updated_at := updated_at; TeeTime.players := players |}.

End Models.

(** ** api/client.py *)

(** The query parameters of one [GET /tee-times] request.  The two bounds
    are ISO-8601 texts with a [Z] suffix in the program; here each is the
    reading it spells, in microseconds.  [order[from]] is always [asc]. *)
Module Query.
Record t : Type := {
  from_after : Z;
  from_before : Z;
  course_uuid : string;
  available_slots_gte : Z;
  limit : Z;
  page : Z
}.
End Query.

(** An [httpx.Response]: the status code and what [response.json()] gives
    ([Raise JSONDecodeError] for a body that is no JSON text). *)
Module Response.
Record t : Type := {
  status_code : Z;
  json : Exc value
}.
End Response.

(** [response.raise_for_status()]: any status outside 2xx raises. *)
Definition raise_for_status (response : Response.t) : Exc unit :=
  if (200 <=? Response.status_code response) && (Response.status_code response <=? 299)
  then Ok tt
  else Raise (HTTPStatusError (Response.status_code response)).

(** [list.sort(key=key)]: a stable sort that orders by [<] on the keys and
    lets an exception of [<] through.  It is written as a stable insertion
    sort; the section "[list.sort] on start times" shows that, on start
    times, neither the list returned nor whether an exception is raised
    depends on which comparisons are made. *)
Section Sort.
Context {A K : Type} (lt : K → K → Exc bool) (key : A → K).

Fixpoint sort_insert (x : A) (sorted : list A) : Exc (list A) :=
  match sorted with
  | [] => Ok [x]
  | y :: rest =>
      y_first ← lt (key y) (key x);
      if (y_first : bool) then cons y <$> sort_insert x rest
      else Ok (x :: y :: rest)
  end.

Fixpoint list_sort (l : list A) : Exc (list A) :=
  match l with
  | [] => Ok []
  | x :: rest => sorted ← list_sort rest; sort_insert x sorted
  end.

End Sort.

Section Client.
Context `{StrMethods} `{Pydantic} `{TzDatabase}.

(** [v.lower()] on an arbitrary value: only a str has [lower]. *)
Definition value_lower (v : value) : Exc string :=
  match v with
  | VStr s => Ok (str_lower s)
  | _ => Raise AttributeError
  end.

Definition is_competition_time (tee_time_data : dict) : Exc bool :=
  let category := dict_get tee_time_data "category" (VDict []) in
  if negb (truthy category) then Ok false
  else
    description ← value_get category "description" (VStr "") ≫= value_lower;
    custom_name ← value_get category "custom_name" (VStr "") ≫= value_lower;
    if is_infix "tävling" description || is_infix "tävling" custom_name
    then Ok true
    else Ok false.

(** The [TeeTimeCourse] stored in [item["course"]] (lines 192-210). *)
Definition course_info (course_uuid : string) (item : dict) : Exc TeeTimeCourse.t :=
  match dict_lookup "course" item with
  | Some (VDict course) =>
      let id := dict_get course "id" (VInt 0) in
      let uuid := dict_get course "uuid" (VStr course_uuid) in
      let name := dict_get course "name" (VStr "") in
      club_name ← match dict_lookup "club" course with
                  | Some club => value_get club "name" (VStr "")
                  | None => Ok (VStr "")
                  end;
      TeeTimeCourse_init
        [("id", id); ("uuid", uuid); ("name", name); ("club_name", club_name)]
  | _ =>
      TeeTimeCourse_init
        [("id", VInt 0); ("uuid", VStr course_uuid); ("name", VStr "");
         ("club_name", VStr "")]
  end.

(** [item["price"] = Money(...)] when the price is a dict (lines 213-214). *)
Definition parse_price (item : dict) : Exc dict :=
  match dict_lookup "price" item with
  | Some (VDict price) =>
      money ← Money_init price; Ok (dict_set "price" (VMoney money) item)
  | _ => Ok item
  end.

(** The body of the inner [try] (lines 188-221) for one [item]:
    [Ok (Some tt)] when [tt] is appended, [Ok None] when the item is passed
    over, [Raise e] when [e] reaches the inner [except]. *)
Definition parse_tee_time (course_uuid : string) (players : Z) (item : value)
    : Exc (option TeeTime.t) :=
  match item with
  | VDict item =>
      let available_slots := dict_get item "available_slots" (VInt 0) in
      enough ← value_ge_int available_slots players;
      if (enough : bool) then
        course ← course_info course_uuid item;
        let item := dict_set "course" (VTeeTimeCourse course) item in
        item ← parse_price item;
        competition ← is_competition_time item;
        if negb competition then Some <$> TeeTime_init item
        else Ok None
      else Ok None
  | _ => Raise AttributeError
  end.

(** One round of [for item in items] (lines 186-224) on the accumulator. *)
Definition append_tee_time (course_uuid : string) (players : Z)
    (all_tee_times : list TeeTime.t) (item : value) : list TeeTime.t :=
  match parse_tee_time course_uuid players item with
  | Ok (Some tee_time) => all_tee_times ++ [tee_time]
  | Ok None => all_tee_times
  | Raise _ => all_tee_times
  end.

(** The record sequence of a response (lines 179-183). *)
Definition response_items (data : value) : Exc value :=
  match data with
  | VList _ => Ok data
  | _ =>
      default ← value_get data "items" (VList []);
      value_get data "hydra:member" default
  end.

(** What [for item in items] runs through.  A dict yields its keys and a
    str its characters (here one str per byte); the other values that a
    response can hold are not iterable. *)
Definition iterate (items : value) : Exc (list value) :=
  match items with
  | VList l => Ok l
  | VDict d => Ok (map (λ kv, VStr (fst kv)) d)
  | VStr s => Ok (map (λ c, VStr (String c EmptyString)) (list_ascii_of_string s))
  | _ => Raise TypeError
  end.

(** Lines 173-183 and the start of the loop of line 186: the items of the
    answer to one query, or the exception that reaches one of the two outer
    [except] clauses. *)
Definition fetch_items (client_get : Query.t → Exc Response.t) (params : Query.t)
    : Exc (list value) :=
  response ← client_get params;
  _ ← raise_for_status response;
  data ← Response.json response;
  items ← response_items data;
  iterate items.

(** One round of [for course_uuid in course_uuids] (lines 161-234).  Both
    outer [except] clauses log and go on to the next course. *)
Definition query_course (client_get : Query.t → Exc Response.t) (players : Z)
    (all_tee_times : list TeeTime.t) (params : Query.t) : list TeeTime.t :=
  match fetch_items client_get params with
  | Ok items =>
      foldl (append_tee_time (Query.course_uuid params) players) all_tee_times items
  | Raise e =>
      if is_HTTPError e then all_tee_times else all_tee_times
  end.

(** [start_iso] and [end_iso] (lines 146-156), as the microsecond count of
    the UTC reading.  The conversion of an aware bound lies outside every
    [try]; [astimezone] raises [OverflowError] when the UTC reading leaves
    the range of [datetime], which takes a bound within a day of
    [datetime.min] or [datetime.max].  [iso_utc] gives the reading of the
    bounds that convert ([converts_to_utc] below), and what follows
    describes the calls made with such bounds. *)
Definition iso_utc (dt : datetime) : Z :=
  match tz dt with
  | Some _ => wall (astimezone_utc dt)
  | None => wall dt
  end.

Definition tee_times_params (start_datetime end_datetime : datetime)
    (players limit page : Z) (course_uuid : string) : Query.t :=
  {| Query.from_after := iso_utc start_datetime;
     Query.from_before := iso_utc end_datetime;
     Query.course_uuid := course_uuid;
     Query.available_slots_gte := players;
     Query.limit := limit;
     Query.page := page |}.

(** [all_tee_times] when the loop over the courses is left (line 235). *)
Definition collect_tee_times (client_get : Query.t → Exc Response.t)
    (course_uuids : list string) (start_datetime end_datetime : datetime)
    (players limit page : Z) : list TeeTime.t :=
  foldl (λ all_tee_times course_uuid,
           query_course client_get players all_tee_times
             (tee_times_params start_datetime end_datetime players limit page
                course_uuid))
        [] course_uuids.

Definition get_available_times (client_get : Query.t → Exc Response.t)
    (course_uuids : list string) (start_datetime end_datetime : datetime)
    (players limit page : Z) : Exc (list TeeTime.t) :=
  let all_tee_times :=
    collect_tee_times client_get course_uuids start_datetime end_datetime
      players limit page in
  list_sort optional_datetime_lt TeeTime.from_time all_tee_times.

End Client.

(** ** cli/app.py *)

(** [str(e)] for an exception [e]. *)
Class ExceptionText : Type := { exn_str : exn → string }.

(** A request sent to the upstream API. *)
Inductive request : Type :=
| GetCourses
| GetTeeTimes (params : Query.t).

(** The lines the [availability] command prints before it gives up. *)
Inductive message : Type :=
| MustSpecifyCourses
| EndMustBeAfterStart
| NoCoursesFound
| AuthorizationRequired
| ErrorLine.

(** How the [availability] command ends: [typer.Exit] with the lines
    printed before it, [typer.BadParameter], another exception that leaves
    the command, or the tee times handed to the display code of lines
    612-710. *)
Inductive outcome : Type :=
| Exit (code : Z) (printed : list message)
| BadParameter
| Uncaught (e : exn)
| Display (tee_times : list TeeTime.t).

Section Cli.
Context `{StrMethods} `{Pydantic} `{TzDatabase} `{DateParsers} `{ExceptionText}.

Definition stockholm_tz : tzinfo := ZoneInfo "Europe/Stockholm".

(** [dt.replace(tzinfo=z)] *)
Definition replace_tzinfo (dt : datetime) (z : tzinfo) : datetime :=
  {| wall := wall dt; tz := Some z |}.

(** [parse_datetime_arg]; [None] is [typer.BadParameter]. *)
Definition parse_datetime_arg (date_str : string) (default_time : option Z)
    : option datetime :=
  match dateutil_parse date_str with
  | Some dt =>
      match tz dt with
      | None => Some (replace_tzinfo dt stockholm_tz)
      | Some _ => Some dt
      end
  | None =>
      match strptime_date date_str with
      | Some d =>
          let dt :=
            match default_time with
            | Some t => datetime_combine d t
            | None => datetime_combine d time_min
            end in
          Some (replace_tzinfo dt stockholm_tz)
      | None => None
      end
  end.

(** Truth value of an optional list and of an optional str. *)
Definition given {A} (o : option (list A)) : bool :=
  match o with
  | Some (_ :: _) => true
  | _ => false
  end.

Definition given_str (o : option string) : option string :=
  match o with
  | Some s => if String.eqb s "" then None else Some s
  | None => None
  end.

Definition if_given {A} (o : option (list A)) : list A :=
  match o with
  | Some l => l
  | None => []
  end.

(** The deduplication at the end of [get_courses_by_criteria]. *)
Fixpoint unique_courses (seen : gset Z) (selected_courses : list Course.t)
    : list Course.t :=
  match selected_courses with
  | [] => []
  | course :: rest =>
      if decide (Course.id course ∈ seen) then unique_courses seen rest
      else course :: unique_courses ({[Course.id course]} ∪ seen) rest
  end.

(** [get_courses_by_criteria], given what [client.get_courses()] returned. *)
Definition get_courses_by_criteria (all_golfstar_courses : list Course.t)
    (course_ids : option (list Z)) (course_names : option (list string))
    (all_courses : bool) : list Course.t :=
  if all_courses then all_golfstar_courses
  else
    let by_id :=
      flat_map (λ course_id,
                  match find (λ c, Course.id c =? course_id) all_golfstar_courses with
                  | Some course => [course]
                  | None => []
                  end)
               (if_given course_ids) in
    let by_name :=
      flat_map (λ name_query,
                  filter (λ c, Is_true (is_infix (str_lower name_query)
                                                 (str_lower (Course.name c))))
                         all_golfstar_courses)
               (if_given course_names) in
    unique_courses ∅ (by_id ++ by_name).

(** [{course.uuid: course for course in courses}] *)
Definition course_map_of (courses : list Course.t) : gmap string Course.t :=
  foldl (λ m course, <[Course.uuid course := course]> m) ∅ courses.

(** Lines 577-581.  The [elif] branch is never taken: no [TeeTime] has an
    attribute [_course_uuid], since nothing assigns one. *)
Definition found_course_uuid (tee_time : TeeTime.t) : option string :=
  match TeeTime.course tee_time with
  | Some course =>
      if negb (String.eqb (TeeTimeCourse.uuid course) "")
      then Some (TeeTimeCourse.uuid course)
      else None
  | None => None
  end.

(** Lines 586-591. *)
Definition full_course_info (course : Course.t) : Exc TeeTimeCourse.t :=
  TeeTimeCourse_init
    [("id", VInt (Course.id course)); ("uuid", VStr (Course.uuid course));
     ("name", VStr (Course.name course));
     ("club_name", VStr (Club.name (Course.club course)))].

(** One round of the loop of lines 575-591. *)
Definition map_course_info (course_map : gmap string Course.t)
    (tee_time : TeeTime.t) : Exc TeeTime.t :=
  match found_course_uuid tee_time with
  | Some course_uuid =>
      match course_map !! course_uuid with
      | Some course =>
          info ← full_course_info course;
          Ok (TeeTime.set_course tee_time (Some info))
      | None => Ok tee_time
      end
  | None => Ok tee_time
  end.

(** The loop of lines 575-591 over all tee times. *)
Fixpoint map_all_course_info (course_map : gmap string Course.t)
    (tee_times : list TeeTime.t) : Exc (list TeeTime.t) :=
  match tee_times with
  | [] => Ok []
  | tee_time :: rest =>
      tee_time ← map_course_info course_map tee_time;
      cons tee_time <$> map_all_course_info course_map rest
  end.

(** The [availability] command (lines 504-610), given the current date,
    what [client.get_courses()] does and how the server answers
    [/tee-times]: the requests sent, in order, and how the command ends. *)
Definition availability (today : Z) (get_courses : Exc (list Course.t))
    (client_get : Query.t → Exc Response.t)
    (course_ids : option (list Z)) (course_names : option (list string))
    (all_courses : bool) (start end_ : option string) (players : Z)
    : list request * outcome :=
  if negb (given course_ids || given course_names || all_courses)
  then ([], Exit 1 [MustSpecifyCourses])
  else
    let start_dt :=
      match given_str start with
      | None => Some (datetime_combine today time_min)
      | Some s => parse_datetime_arg s (Some time_min)
      end in
    match start_dt with
    | None => ([], BadParameter)
    | Some start_dt =>
        let end_dt :=
          match given_str end_ with
          | None => Some (datetime_combine (datetime_date start_dt) time_23_59_59)
          | Some s => parse_datetime_arg s (Some time_23_59_59)
          end in
        match end_dt with
        | None => ([], BadParameter)
        | Some end_dt =>
            match datetime_lt end_dt start_dt with
            | Raise e => ([], Uncaught e)
            | Ok true => ([], Exit 1 [EndMustBeAfterStart])
            | Ok false =>
                match get_courses with
                | Raise e => ([GetCourses], Exit 1 [ErrorLine])
                | Ok all_golfstar_courses =>
                    let courses :=
                      get_courses_by_criteria all_golfstar_courses
                        course_ids course_names all_courses in
                    match courses with
                    | [] => ([GetCourses], Exit 1 [NoCoursesFound; ErrorLine])
                    | _ :: _ =>
                        let course_uuids := map Course.uuid courses in
                        let course_map := course_map_of courses in
                        let sent :=
                          GetCourses ::
                          map (λ u, GetTeeTimes
                                 (tee_times_params start_dt end_dt players 100 1 u))
                              course_uuids in
                        let tee_times :=
                          tee_times ← get_available_times client_get course_uuids
                                        start_dt end_dt players 100 1;
                          map_all_course_info course_map tee_times in
                        match tee_times with
                        | Ok tee_times => (sent, Display tee_times)
                        | Raise e =>
                            if is_infix "401" (exn_str e) || is_infix "JWT" (exn_str e)
                            then (sent, Exit 1 [AuthorizationRequired; ErrorLine])
                            else (sent, Exit 1 [ErrorLine])
                        end
                    end
                end
            end
        end
    end.

End Cli.

(** ** models/teetime.py: the computed properties of [TeeTime] *)

(** [str(d)] for a [Decimal] [d]. *)
Class DecimalText : Type := { decimal_str : decimal → string }.

(** The time zone database read from UTC: the offset (microseconds) that the
    zone [key] has at a UTC instant, as [tz.fromutc] applies it. *)
Class ZoneFromUtc : Type := { zone_fromutc_offset : string → Z → Z }.

Section TeeTimeProperties.
Context `{TzDatabase} `{ZoneFromUtc} `{DecimalText}.

Definition fromutc_offset (target : tzinfo) (utc : Z) : Z :=
  match target with
  | FixedOffset o => o
  | ZoneInfo key => zone_fromutc_offset key utc
  end.

(** [dt.astimezone(target)] for an aware [dt] with wall clock [w] and
    [tzinfo] [z]: [dt] itself when [target] is its own [tzinfo], else the
    reading of [target] at the same instant. *)
Definition astimezone (w : Z) (z target : tzinfo) : datetime :=
  if decide (z = target) then {| wall := w; tz := Some z |}
  else
    let utc := w - utcoffset z w in
    {| wall := utc + fromutc_offset target utc; tz := Some target |}.

(** Two decimal digits of a number between 0 and 99. *)
Definition two_digits (n : Z) : string :=
  String (ascii_of_N (Z.to_N (48 + n / 10)))
    (String (ascii_of_N (Z.to_N (48 + n mod 10))) EmptyString).

(** [dt.strftime("%H:%M")] *)
Definition strftime_HM (dt : datetime) : string :=
  let hour := (wall dt / 3600000000) mod 24 in
  let minute := (wall dt / 60000000) mod 60 in
  two_digits hour +:+ ":" +:+ two_digits minute.

Definition time_display (tee_time : TeeTime.t) : string :=
  match TeeTime.from_time tee_time with
  | Some from_time =>
      let local_time :=
        match tz from_time with
        | Some z => astimezone (wall from_time) z stockholm_tz
        | None => astimezone (wall from_time) (ZoneInfo "UTC") stockholm_tz
        end in
      strftime_HM local_time
  | None => "N/A"
  end.

(** [n or 0] *)
Definition or_zero (n : option Z) : Z :=
  match n with
  | Some n => n
  | None => 0
  end.

Definition is_available (tee_time : TeeTime.t) : bool :=
  0 <? or_zero (TeeTime.available_slots tee_time).

(** Truth value of an optional str and of an optional [Decimal]. *)
Definition nonempty (s : option string) : option string :=
  match s with
  | Some s => if String.eqb s "" then None else Some s
  | None => None
  end.

Definition nonzero (d : option decimal) : option decimal :=
  match d with
  | Some d => if coefficient d =? 0 then None else Some d
  | None => None
  end.

Definition price_display (tee_time : TeeTime.t) : string :=
  match TeeTime.price tee_time with
  | Some price =>
      match nonempty (Money.formatted price) with
      | Some formatted => formatted
      | None =>
          match nonzero (Money.amount price) with
          | Some amount =>
              decimal_str amount +:+ " "
              +:+ default "SEK" (nonempty (Money.currency price))
          | None => "N/A"
          end
      end
  | None => "N/A"
  end.

End TeeTimeProperties.

(** ** api/client.py: [get_courses] *)

Definition GOLFSTAR_CLUB_ID : string := "275".

(** Truth value of an optional int. *)
Definition nonzero_int (n : option Z) : option Z :=
  match n with
  | Some n => if n =? 0 then None else Some n
  | None => None
  end.

(** The query parameters of [GET /courses] (lines 93-103). *)
Definition courses_params (club_id : option string) (order_by order_direction : string)
    (search : option string) (limit page : option Z) : dict :=
  let club_id := default GOLFSTAR_CLUB_ID club_id in
  let params :=
    [("club.id", VStr club_id);
     ("order[" +:+ order_by +:+ "]", VStr order_direction)] in
  let params :=
    match nonempty search with
    | Some search => dict_set "search" (VStr search) params
    | None => params
    end in
  let params :=
    match nonzero_int limit with
    | Some limit => dict_set "limit" (VInt limit) params
    | None => params
    end in
  match nonzero_int page with
  | Some page => dict_set "page" (VInt page) params
  | None => params
  end.

(** [[f(x) for x in l]] where [f] may raise. *)
Fixpoint comprehension {A B : Type} (f : A → Exc B) (l : list A) : Exc (list B) :=
  match l with
  | [] => Ok []
  | x :: rest => y ← f x; cons y <$> comprehension f rest
  end.

(** [get_courses] (lines 93-117), given how the server answers [/courses]
    and what [Course] makes of one record of the answer: both [except]
    clauses log and raise again. *)
Definition get_courses (client_get : dict → Exc Response.t)
    (Course_of : value → Exc Course.t)
    (club_id : option string) (order_by order_direction : string)
    (search : option string) (limit page : option Z) : Exc (list Course.t) :=
  let params := courses_params club_id order_by order_direction search limit page in
  let result :=
    response ← client_get params;
    _ ← raise_for_status response;
    courses_data ← Response.json response;
    records ← iterate courses_data;
    comprehension Course_of records in
  match result with
  | Ok courses => Ok courses
  | Raise e => if is_HTTPError e then Raise e else Raise e
  end.

(** ** cli/app.py: [format_availability_by_course] *)

(** [datetime.min], 0001-01-01T00:00:00, naive. *)
Definition datetime_min : datetime :=
  {| wall := -62135596800000000; tz := None |}.

(** The key of the [defaultdict] for one tee time (line 262). *)
Definition course_key (tee_time : TeeTime.t) : string :=
  match TeeTime.course tee_time with
  | Some course => TeeTimeCourse.name course
  | None => "Unknown Course"
  end.

(** [grouped[k].append(t)] on a [defaultdict(list)], given by its items in
    insertion order. *)
Fixpoint group_append (k : string) (t : TeeTime.t)
    (grouped : list (string * list TeeTime.t)) : list (string * list TeeTime.t) :=
  match grouped with
  | [] => [(k, [t])]
  | (k', l) :: rest =>
      if String.eqb k k' then (k', l ++ [t]) :: rest
      else (k', l) :: group_append k t rest
  end.

(** The sort key of lines 267, 312, 429 and 655. *)
Definition from_time_or_min (t : TeeTime.t) : datetime :=
  match TeeTime.from_time t with
  | Some from_time => from_time
  | None => datetime_min
  end.

(** The loop of lines 266-267. *)
Fixpoint sort_groups `{TzDatabase} (grouped : list (string * list TeeTime.t))
    : Exc (list (string * list TeeTime.t)) :=
  match grouped with
  | [] => Ok []
  | (k, l) :: rest =>
      l ← list_sort datetime_lt from_time_or_min l;
      rest ← sort_groups rest;
      Ok ((k, l) :: rest)
  end.

Definition format_availability_by_course `{TzDatabase} (tee_times : list TeeTime.t)
    : Exc (list (string * list TeeTime.t)) :=
  let grouped :=
    foldl (λ grouped tee_time,
             group_append (course_key tee_time) tee_time grouped)
          [] tee_times in
  sort_groups grouped.

(** [grouped.get(k, [])] *)
Fixpoint group_get (k : string) (grouped : list (string * list TeeTime.t))
    : list TeeTime.t :=
  match grouped with
  | [] => []
  | (k', l) :: rest => if String.eqb k k' then l else group_get k rest
  end.

(** ** Reference instances

    Instances of the classes above that decide the inputs of the closed
    examples below as the libraries do.  They cover a fragment of what the
    libraries accept and reject everything else. *)

Module Reference.

Definition byte_of (c : ascii) : Z := Z.of_N (N_of_ascii c).
Definition of_byte (n : Z) : ascii := ascii_of_N (Z.to_N n).

(** [str.lower] on UTF-8 text, for the letters of ASCII and Latin-1: the
    upper-case letters U+00C0 to U+00DE (U+00D7 is no letter) are the bytes
    C3 80 to C3 9E. *)
Fixpoint lower_utf8 (after_c3 : bool) (s : string) : string :=
  match s with
  | EmptyString => EmptyString
  | String c rest =>
      let n := byte_of c in
      if after_c3 then
        if (128 <=? n) && (n <=? 158) && negb (n =? 151)
        then String (of_byte (n + 32)) (lower_utf8 false rest)
        else String c (lower_utf8 false rest)
      else if (65 <=? n) && (n <=? 90)
      then String (of_byte (n + 32)) (lower_utf8 false rest)
      else String c (lower_utf8 (n =? 195) rest)
  end.

#[export] Instance str_methods : StrMethods := {| str_lower := lower_utf8 false |}.

Definition digit (c : ascii) : option Z :=
  let n := byte_of c in
  if (48 <=? n) && (n <=? 57) then Some (n - 48) else None.

Definition digits (cs : list ascii) : option Z :=
  foldl (λ acc c, a ← acc; d ← digit c; Some (10 * a + d)) (Some 0) cs.

(** Days from 1970-01-01 to the civil date [y]-[m]-[d]. *)
Definition days_from_civil (y m d : Z) : Z :=
  let y := if m <=? 2 then y - 1 else y in
  let era := y / 400 in
  let yoe := y - era * 400 in
  let doy := (153 * ((m + 9) mod 12) + 2) / 5 + d - 1 in
  let doe := yoe * 365 + yoe / 4 - yoe / 100 + doy in
  era * 146097 + doe - 719468.

Definition is_leap (y : Z) : bool :=
  ((y mod 4 =? 0) && negb (y mod 100 =? 0)) || (y mod 400 =? 0).

Definition days_in_month (y m : Z) : Z :=
  if m =? 2 then (if is_leap y then 29 else 28)
  else if (m =? 4) || (m =? 6) || (m =? 9) || (m =? 11) then 30
  else 31.

Definition has_char (cs : list ascii) (i : nat) (c : ascii) : bool :=
  match cs !! i with
  | Some c' => Ascii.eqb c c'
  | None => false
  end.

Definition slice (cs : list ascii) (i n : nat) : list ascii := take n (drop i cs).

(** [YYYY-MM-DD] at the start of [cs]: the day number. *)
Definition parse_date (cs : list ascii) : option Z :=
  y ← digits (slice cs 0 4);
  m ← digits (slice cs 5 2);
  d ← digits (slice cs 8 2);
  if has_char cs 4 "-" && has_char cs 7 "-"
     && (1 <=? y) && (1 <=? m) && (m <=? 12) && (1 <=? d) && (d <=? days_in_month y m)
  then Some (days_from_civil y m d)
  else None.

(** [HH:MM] at position 11 of [cs], in microseconds. *)
Definition parse_hour_minute (cs : list ascii) : option Z :=
  h ← digits (slice cs 11 2);
  mi ← digits (slice cs 14 2);
  if has_char cs 13 ":" && (h <=? 23) && (mi <=? 59)
  then Some ((h * 60 + mi) * 60 * 1000000)
  else None.

(** [:SS] at position 16 of [cs], in microseconds. *)
Definition parse_second (cs : list ascii) : option Z :=
  s ← digits (slice cs 17 2);
  if has_char cs 16 ":" && (s <=? 59) then Some (s * 1000000) else None.

(** The ISO-8601 texts [YYYY-MM-DDTHH:MM:SS] (naive) and
    [YYYY-MM-DDTHH:MM:SSZ] (UTC). *)
Definition parse_iso (s : string) : option datetime :=
  let cs := list_ascii_of_string s in
  d ← parse_date cs;
  hm ← parse_hour_minute cs;
  sec ← parse_second cs;
  let w := d * microseconds_per_day + hm + sec in
  if negb (has_char cs 10 "T") then None
  else if (length cs =? 19)%nat then Some {| wall := w; tz := None |}
  else if (length cs =? 20)%nat && has_char cs 19 "Z"
  then Some {| wall := w; tz := Some (FixedOffset 0) |}
  else None.

Definition datetime_of (v : value) : option datetime :=
  match v with
  | VStr s => parse_iso s
  | _ => None
  end.

#[export, refine] Instance pydantic : Pydantic := {|
  validate_int v := match v with VInt z => Some z | _ => None end;
  validate_str v := match v with VStr s => Some s | _ => None end;
  validate_bool v := match v with VBool b => Some b | _ => None end;
  validate_datetime := datetime_of;
  validate_decimal v :=
    match v with
    | VInt z => Some {| coefficient := z; exponent := 0 |}
    | _ => None
    end
|}.
Proof.
  - reflexivity.
  - reflexivity.
  - intros [] dt; simpl; try discriminate.
    unfold parse_iso. intros Hp.
    destruct (parse_date _); simpl in Hp; [|discriminate].
    destruct (parse_hour_minute _); simpl in Hp; [|discriminate].
    destruct (parse_second _); simpl in Hp; [|discriminate].
    repeat case_match; simplify_eq; exact I.
Defined.

(** Europe/Stockholm at its standard time, UTC+1; daylight saving time is
    not covered. *)
#[export] Instance tz_database : TzDatabase :=
  {| zone_utcoffset _ _ := 3600 * 1000000 |}.

(** [dateutil.parser.parse] on [YYYY-MM-DD] and [YYYY-MM-DD HH:MM]. *)
Definition parse_date_time (s : string) : option datetime :=
  let cs := list_ascii_of_string s in
  d ← parse_date cs;
  if (length cs =? 10)%nat then Some (datetime_combine d 0)
  else if (length cs =? 16)%nat && has_char cs 10 " "
  then hm ← parse_hour_minute cs; Some (datetime_combine d hm)
  else None.

#[export] Instance date_parsers : DateParsers := {|
  dateutil_parse := parse_date_time;
  strptime_date s :=
    let cs := list_ascii_of_string s in
    if (length cs =? 10)%nat then parse_date cs else None
|}.

(** The texts of the exceptions: CPython's for a failed comparison, httpx's
    status line, and the class name for the others. *)
#[export] Instance exception_text : ExceptionText := {|
  exn_str e :=
    match e with
    | TypeError => "'<' not supported between instances of 'NoneType' and 'datetime.datetime'"
    | AttributeError => "AttributeError"
    | ValidationError => "ValidationError"
    | JSONDecodeError => "JSONDecodeError"
    | HTTPStatusError 401 => "Client error '401 Unauthorized'"
    | HTTPStatusError _ => "HTTPStatusError"
    | TransportError => "TransportError"
    end
|}.

End Reference.

(** Instances for the display code, in the same way. *)
Module ReferenceDisplay.

(** [str(d)] for an integral [Decimal] (exponent 0). *)
#[export] Instance decimal_text : DecimalText :=
  {| decimal_str d := pretty (coefficient d) |}.

(** Europe/Stockholm at its standard time, UTC+1, and UTC itself. *)
#[export] Instance zone_from_utc : ZoneFromUtc :=
  {| zone_fromutc_offset key _ := if String.eqb key "UTC" then 0 else 3600 * 1000000 |}.

(** As [Reference.tz_database], with the zone UTC at offset 0. *)
Definition tz_database_utc : TzDatabase :=
  {| zone_utcoffset key _ := if String.eqb key "UTC" then 0 else 3600 * 1000000 |}.

End ReferenceDisplay.

(** A zone database with daylight saving time, for one year. *)
Module SummerTime.

(** Europe/Stockholm in 2025 as [zoneinfo] reads a wall clock (fold 0):
    UTC+2 from 03:00 on 30 March until 03:00 on 26 October, UTC+1
    otherwise. *)
Definition stockholm_2025 : TzDatabase :=
  {| zone_utcoffset _ w :=
       if (1743303600000000 <=? w) && (w <? 1761447600000000)
       then 2 * 3600 * 1000000
       else 3600 * 1000000 |}.

(** 02:30 and 03:00 on 30 March 2025, on the clock of Stockholm. *)
Definition half_past_two : datetime :=
  {| wall := 1743301800000000; tz := Some stockholm_tz |}.
Definition three_o_clock : datetime :=
  {| wall := 1743303600000000; tz := Some stockholm_tz |}.

End SummerTime.

(** ** Vocabulary of the statements *)

(** Whether a sort key is a naive ([Some false]) or an aware ([Some true])
    datetime; [None] has no kind. *)
Definition kind_of (k : option datetime) : option bool :=
  match k with
  | Some dt => Some (bool_decide (is_Some (tz dt)))
  | None => None
  end.

(** The number by which [<] orders a key among the keys of its kind: the
    wall-clock reading of a naive datetime, the UTC instant of an aware
    one. *)
Definition rank_of `{TzDatabase} (k : option datetime) : Z :=
  match k with
  | Some dt =>
      match tz dt with
      | Some z => wall dt - utcoffset z (wall dt)
      | None => wall dt
      end
  | None => 0
  end.

Definition fixed_key (k : option datetime) : Prop :=
  match k with
  | Some dt => fixed_offset dt
  | None => True
  end.

(** The stable insertion sort by a total rank, without exceptions. *)
Section PureSort.
Context {A : Type} (rank : A → Z).

Fixpoint insert_by (x : A) (sorted : list A) : list A :=
  match sorted with
  | [] => [x]
  | y :: rest => if rank y <? rank x then y :: insert_by x rest else x :: y :: rest
  end.

Fixpoint sort_by (l : list A) : list A :=
  match l with
  | [] => []
  | x :: rest => insert_by x (sort_by rest)
  end.

Definition rank_le (a b : A) : Prop := rank a <= rank b.

End PureSort.

(** An element whose key is of kind [k] and, when aware, carries a fixed
    offset. *)
Definition same_kind {A : Type} (key : A → option datetime) (k : bool) (a : A)
    : Prop :=
  fixed_key (key a) ∧ kind_of (key a) = Some k.

(** The order of the keys as [<] decides it: [key_le a b] when [b < a] is
    false, [key_eqb a b] when both [a < b] and [b < a] are false. *)
Definition key_le `{TzDatabase} (a b : option datetime) : Prop :=
  optional_datetime_lt b a = Ok false.

Definition key_eqb `{TzDatabase} (a b : option datetime) : bool :=
  match optional_datetime_lt a b, optional_datetime_lt b a with
  | Ok false, Ok false => true
  | _, _ => false
  end.

(** [b] does not start before [a]; [a] and [b] start at the same time. *)
Definition starts_no_later `{TzDatabase} (a b : TeeTime.t) : Prop :=
  key_le (TeeTime.from_time a) (TeeTime.from_time b).

Definition same_start `{TzDatabase} (a b : TeeTime.t) : bool :=
  key_eqb (TeeTime.from_time a) (TeeTime.from_time b).

(** The response of the envelope example:
    an object whose [items] hold one record, [t1]. *)
Definition envelope_example : value :=
  VDict [("items",
          VList [VDict [("uuid", VStr "t1");
                        ("from", VStr "2025-01-15T07:00:00Z");
                        ("available_slots", VInt 2);
                        ("max_slots", VInt 4)]])].

(** The [TeeTimeCourse] that lines 586-591 derive from a full [Course]. *)
Definition course_projection (course : Course.t) : TeeTimeCourse.t :=
  {| TeeTimeCourse.id := Course.id course;
     TeeTimeCourse.uuid := Course.uuid course;
     TeeTimeCourse.name := Course.name course;
     TeeTimeCourse.club_name := Some (Club.name (Course.club course)) |}.

(** A course mapping whose keys are the UUIDs of its courses. *)
Definition keyed_by_uuid (course_map : gmap string Course.t) : Prop :=
  ∀ k course, course_map !! k = Some course → Course.uuid course = k.

(** A tee time for which the mapping has no course: no UUID is found for
    it, or the UUID found is no key of the mapping. *)
Definition unmatched (course_map : gmap string Course.t) (tee_time : TeeTime.t) : Prop :=
  match found_course_uuid tee_time with
  | Some course_uuid => course_map !! course_uuid = None
  | None => True
  end.

(** [s] contains the competition marker. *)
Definition contains_marker (s : string) : Prop :=
  ∃ before after, s = before +:+ "tävling" +:+ after.

(** A value that is neither an object, nor null, nor a model instance. *)
Definition is_scalar_or_list (v : value) : bool :=
  match v with
  | VBool _ | VInt _ | VFloat _ | VStr _ | VList _ => true
  | _ => false
  end.

(** What one id contributes to the selection of [get_courses_by_criteria]
    (lines 222-229). *)
Definition found_by_id (all_golfstar_courses : list Course.t) (course_id : Z)
    : list Course.t :=
  match find (λ c, Course.id c =? course_id) all_golfstar_courses with
  | Some course => [course]
  | None => []
  end.

(** [grouped] when the loop of lines 261-263 is left. *)
Definition group_all (tee_times : list TeeTime.t) : list (string * list TeeTime.t) :=
  foldl (λ grouped tee_time, group_append (course_key tee_time) tee_time grouped)
        [] tee_times.

(** A request for tee times whose window is empty. *)
Definition empty_window (r : request) : Prop :=
  match r with
  | GetTeeTimes params => Query.from_after params = Query.from_before params
  | GetCourses => True
  end.

(** The UTC offset in force at an aware datetime. *)
Definition utcoffset_of `{TzDatabase} (dt : datetime) : Z :=
  match tz dt with
  | Some z => utcoffset z (wall dt)
  | None => 0
  end.

(** No change of UTC offset between two bounds of one zone: when [a] and [b]
    carry the same [tzinfo], the same offset is in force at both. *)
Definition same_offset_in_zone `{TzDatabase} (a b : datetime) : Prop :=
  tz a = tz b → utcoffset_of a = utcoffset_of b.

(** [datetime.max], 9999-12-31T23:59:59.999999, naive. *)
Definition datetime_max : datetime :=
  {| wall := 253402300799999999; tz := None |}.

(** [dt.astimezone(timezone.utc)] stays within [datetime.min] and
    [datetime.max], so that lines 146-156 raise no [OverflowError] on [dt];
    a naive [dt] is not converted. *)
Definition converts_to_utc `{TzDatabase} (dt : datetime) : Prop :=
  match tz dt with
  | Some z =>
      wall datetime_min <= wall dt - utcoffset z (wall dt) <= wall datetime_max
  | None => True
  end.

(** ** Example data *)

Module Examples.
Import Reference.

(** A raw record as the API sends it. *)
Definition slot (uuid from : string) (available_slots : Z) : value :=
  VDict [("uuid", VStr uuid); ("from", VStr from);
         ("available_slots", VInt available_slots); ("max_slots", VInt 4)].

Definition answer (status_code : Z) (data : value) : Exc Response.t :=
  Ok {| Response.status_code := status_code; Response.json := Ok data |}.

Definition utc (w : Z) : datetime := {| wall := w; tz := Some (FixedOffset 0) |}.

(** 2025-01-15 00:00 and 23:59:59, Stockholm time *)
Definition day_start : datetime :=
  {| wall := 1736899200000000; tz := Some stockholm_tz |}.
Definition day_end : datetime :=
  {| wall := 1736985599000000; tz := Some stockholm_tz |}.

Definition partial_course (uuid : string) : TeeTimeCourse.t :=
  {| TeeTimeCourse.id := 0; TeeTimeCourse.uuid := uuid;
     TeeTimeCourse.name := ""; TeeTimeCourse.club_name := Some "" |}.

(** The [TeeTime] made of [slot uuid from available_slots]. *)
Definition tee_time (uuid : string) (from_time : option datetime)
    (available_slots : Z) (course : TeeTimeCourse.t) : TeeTime.t :=
  {| TeeTime.id := None; TeeTime.uuid := uuid; TeeTime.from_time := from_time;
     TeeTime.to_time := None; TeeTime.interval := None;
     TeeTime.available_slots := Some available_slots;
     TeeTime.max_slots := Some 4; TeeTime.price := None;
     TeeTime.price_per_extra_player := None; TeeTime.notes := None;
     TeeTime.is_prime_time := false; TeeTime.category := None;
     TeeTime.space := None; TeeTime.course := Some course;
     TeeTime.created_at := None; TeeTime.updated_at := None;
     TeeTime.players := None |}.

Definition seven : Z := 1736924400000000.
Definition eight : Z := 1736928000000000.
Definition nine : Z := 1736931600000000.

Definition three_slots : value :=
  VList [slot "b1" "2025-01-15T07:00:00Z" 2; slot "b2" "2025-01-15T08:00:00Z" 4;
         slot "b3" "2025-01-15T09:00:00Z" 1].

Definition on_course (uuid : string) (hit miss : Exc Response.t)
    (params : Query.t) : Exc Response.t :=
  if String.eqb (Query.course_uuid params) uuid then hit else miss.

(** Course A answers 401, course B one slot. *)
Definition unauthorized_server : Query.t → Exc Response.t :=
  on_course "A"
    (answer 401 (VDict [("code", VInt 401); ("message", VStr "JWT Token not found")]))
    (answer 200 (VList [slot "b1" "2025-01-15T08:00:00Z" 4])).

(** The request for course A fails, course B answers three slots. *)
Definition failing_server : Query.t → Exc Response.t :=
  on_course "A" (Raise TransportError) (answer 200 three_slots).

(** Course A has slots at 09:00 and 07:00, course B at 08:00 and 07:00. *)
Definition two_course_server : Query.t → Exc Response.t :=
  on_course "A"
    (answer 200 (VList [slot "a1" "2025-01-15T09:00:00Z" 4;
                        slot "a2" "2025-01-15T07:00:00Z" 4]))
    (answer 200 (VDict [("hydra:member",
                         VList [slot "b1" "2025-01-15T08:00:00Z" 4;
                                slot "b2" "2025-01-15T07:00:00Z" 4])])).

(** One open slot whose category has a name and a null description. *)
Definition null_description_server : Query.t → Exc Response.t :=
  λ _, answer 200
         (VList [VDict [("uuid", VStr "t1"); ("from", VStr "2025-01-15T07:00:00Z");
                        ("available_slots", VInt 4); ("max_slots", VInt 4);
                        ("category",
                         VDict [("name", VStr "Standard"); ("description", VNone)])]]).

Definition envelope_server : Query.t → Exc Response.t :=
  λ _, answer 200 envelope_example.

(** One record with a start time and one without. *)
Definition missing_from_server : Query.t → Exc Response.t :=
  λ _, answer 200
         (VList [slot "t1" "2025-01-15T07:00:00Z" 4;
                 VDict [("uuid", VStr "t2"); ("available_slots", VInt 4)]]).

Definition no_start : TeeTime.t :=
  {| TeeTime.id := None; TeeTime.uuid := "t2"; TeeTime.from_time := None;
     TeeTime.to_time := None; TeeTime.interval := None;
     TeeTime.available_slots := Some 4;
     TeeTime.max_slots := Some 0; TeeTime.price := None;
     TeeTime.price_per_extra_player := None; TeeTime.notes := None;
     TeeTime.is_prime_time := false; TeeTime.category := None;
     TeeTime.space := None; TeeTime.course := Some (partial_course "A");
     TeeTime.created_at := None; TeeTime.updated_at := None;
     TeeTime.players := None |}.

Definition golfstar : Club.t :=
  {| Club.id := 275; Club.uuid := "club"; Club.name := "Golfstar";
     Club.slug := "golfstar"; Club.terms_url := None |}.

Definition course_a : Course.t :=
  {| Course.id := 1; Course.uuid := "A"; Course.club := golfstar;
     Course.name := "Bromma" |}.

Definition course_b : Course.t :=
  {| Course.id := 2; Course.uuid := "B"; Course.club := golfstar;
     Course.name := "Bodaholm" |}.

Definition full_course (course : Course.t) : TeeTimeCourse.t :=
  course_projection course.

End Examples.

Module MoreExamples.
Import Reference Examples.

(** A record with a price object. *)
Definition priced_slot : dict :=
  [("uuid", VStr "p1"); ("from", VStr "2025-01-15T07:00:00Z");
   ("available_slots", VInt 3); ("max_slots", VInt 4);
   ("price", VDict [("amount", VInt 350); ("currency", VStr "SEK");
                    ("formatted", VStr "350 kr")])].

Definition price_350 : Money.t :=
  {| Money.amount := Some {| coefficient := 350; exponent := 0 |};
     Money.currency := Some "SEK"; Money.formatted := Some "350 kr" |}.

Definition priced_tee_time : TeeTime.t :=
  {| TeeTime.id := None; TeeTime.uuid := "p1";
     TeeTime.from_time := Some (utc seven);
     TeeTime.to_time := None; TeeTime.interval := None;
     TeeTime.available_slots := Some 3;
     TeeTime.max_slots := Some 4; TeeTime.price := Some price_350;
     TeeTime.price_per_extra_player := None; TeeTime.notes := None;
     TeeTime.is_prime_time := false; TeeTime.category := None;
     TeeTime.space := None; TeeTime.course := Some (partial_course "A");
     TeeTime.created_at := None; TeeTime.updated_at := None;
     TeeTime.players := None |}.

(** A record whose price is a number. *)
Definition number_priced_slot : dict :=
  [("uuid", VStr "p2"); ("from", VStr "2025-01-15T08:00:00Z");
   ("available_slots", VInt 3); ("max_slots", VInt 4); ("price", VInt 350)].

(** A record without uuid. *)
Definition anonymous_slot : value :=
  VDict [("from", VStr "2025-01-15T08:00:00Z"); ("available_slots", VInt 3)].

(** A competition with four open slots. *)
Definition competition_slot : dict :=
  [("uuid", VStr "c1"); ("from", VStr "2025-01-15T08:00:00Z");
   ("available_slots", VInt 4); ("max_slots", VInt 4);
   ("category", VDict [("custom_name", VStr "Tävling")])].

(** Every request is answered with status 500. *)
Definition broken_server : Query.t → Exc Response.t :=
  λ _, answer 500 VNone.

Definition course_c : Course.t :=
  {| Course.id := 3; Course.uuid := "C"; Course.club := golfstar;
     Course.name := "Bromma Park" |}.

(** 08:00 at UTC+1, the instant of 07:00 UTC. *)
Definition eight_plus_one : datetime :=
  {| wall := eight; tz := Some (FixedOffset (3600 * 1000000)) |}.

(** [Course] of a record that gives [id], [uuid] and [name]; the club is
    taken to be Golfstar. *)
Definition course_of_record (record : value) : Exc Course.t :=
  match record with
  | VDict d =>
      match dict_lookup "id" d, dict_lookup "uuid" d, dict_lookup "name" d with
      | Some (VInt id), Some (VStr uuid), Some (VStr name) =>
          Ok {| Course.id := id; Course.uuid := uuid; Course.club := golfstar;
                Course.name := name |}
      | _, _, _ => Raise ValidationError
      end
  | _ => Raise TypeError
  end.

Definition course_record (c : Course.t) : value :=
  VDict [("id", VInt (Course.id c)); ("uuid", VStr (Course.uuid c));
         ("name", VStr (Course.name c))].

Definition catalog_server (status_code : Z) : dict → Exc Response.t :=
  λ _, answer status_code (VList [course_record course_a; course_record course_b]).

(** As [two_course_server], except that queries for course C fail. *)
Definition two_course_server_without_c : Query.t → Exc Response.t :=
  λ params,
    if String.eqb (Query.course_uuid params) "C" then answer 500 VNone
    else two_course_server params.

End MoreExamples.


(** * Facts *)

(** ** The error monad *)

Lemma bind_Ok {A B} (m : Exc A) (f : A → Exc B) b :
  m ≫= f = Ok b → ∃ a, m = Ok a ∧ f a = Ok b.
Proof. destruct m; simpl; [eauto | discriminate]. Qed.

Lemma fmap_Ok {A B} (f : A → B) (m : Exc A) b :
  f <$> m = Ok b → ∃ a, m = Ok a ∧ b = f a.
Proof. destruct m; simpl; [intros [= <-]; eauto | discriminate]. Qed.

Section PureSortFacts.
Context {A : Type} (rank : A → Z).

Lemma insert_by_perm x l : insert_by rank x l ≡ₚ x :: l.
Proof.
  induction l as [|y l IH]; simpl; [done|].
  destruct (rank y <? rank x); [|done].
  rewrite IH. apply perm_swap.
Qed.

Lemma sort_by_perm l : sort_by rank l ≡ₚ l.
Proof.
  induction l as [|x l IH]; simpl; [done|].
  by rewrite insert_by_perm, IH.
Qed.

Lemma insert_by_sorted x l :
  StronglySorted (rank_le rank) l → StronglySorted (rank_le rank) (insert_by rank x l).
Proof.
  induction 1 as [|y l Hs IH Hall]; simpl.
  - repeat constructor.
  - destruct (Z.ltb_spec (rank y) (rank x)) as [Hlt|Hge].
    + constructor; [done|].
      rewrite insert_by_perm. constructor; [unfold rank_le; lia | done].
    + constructor; [by constructor|].
      constructor; [done|].
      eapply Forall_impl; [exact Hall|]. unfold rank_le. intros z Hz. simpl in *. lia.
Qed.

Lemma sort_by_sorted l : StronglySorted (rank_le rank) (sort_by rank l).
Proof.
  induction l; simpl; [constructor | by apply insert_by_sorted].
Qed.

Lemma insert_by_filter (r : Z) x l :
  filter (λ a, rank a = r) (insert_by rank x l) = filter (λ a, rank a = r) (x :: l).
Proof.
  induction l as [|y l IH]; simpl; [done|].
  destruct (Z.ltb_spec (rank y) (rank x)) as [Hlt|Hge]; [|done].
  rewrite !filter_cons in *.
  rewrite IH.
  destruct (decide (rank y = r)), (decide (rank x = r)); try done. lia.
Qed.

Lemma sort_by_filter (r : Z) l :
  filter (λ a, rank a = r) (sort_by rank l) = filter (λ a, rank a = r) l.
Proof.
  induction l as [|x l IH]; simpl; [done|].
  rewrite insert_by_filter, !filter_cons, IH. done.
Qed.
End PureSortFacts.

(** ** [list.sort] on start times *)

Section SortFacts.
Context `{TzDatabase} {A : Type} (key : A → option datetime).

Abbreviation lt := optional_datetime_lt.
Abbreviation rank := (λ a, rank_of (key a)).

Lemma lt_spec a b :
  fixed_key a → fixed_key b →
  lt a b =
    match kind_of a, kind_of b with
    | Some x, Some y =>
        if Bool.eqb x y then Ok (rank_of a <? rank_of b) else Raise TypeError
    | _, _ => Raise TypeError
    end.
Proof.
  destruct a as [[wa [[oa|ka]|]]|], b as [[wb [[ob|kb]|]]|];
    simpl; unfold fixed_offset, datetime_lt; simpl; try done.
  intros _ _. case_decide as Heq; [|done].
  injection Heq as ->. f_equal.
  destruct (Z.ltb_spec wa wb), (Z.ltb_spec (wa - ob) (wb - ob)); done || lia.
Qed.

Lemma lt_Ok_kind a b r :
  lt a b = Ok r → ∃ k, kind_of a = Some k ∧ kind_of b = Some k.
Proof.
  destruct a as [[wa [za|]]|], b as [[wb [zb|]]|];
    simpl; unfold datetime_lt; simpl; try done; eauto.
Qed.

Lemma lt_Raise a b e : lt a b = Raise e → e = TypeError.
Proof.
  destruct a as [[wa [za|]]|], b as [[wb [zb|]]|];
    simpl; unfold datetime_lt; simpl; try congruence.
  case_decide; congruence.
Qed.

Lemma sort_insert_perm x l l' :
  sort_insert lt key x l = Ok l' → l' ≡ₚ x :: l.
Proof.
  revert l'. induction l as [|y l IH]; simpl; intros l'.
  - by intros [= <-].
  - intros (b & Hb & Hrest)%bind_Ok. destruct b.
    + apply fmap_Ok in Hrest as (r & Hr & ->).
      rewrite (IH _ Hr). apply perm_swap.
    + by injection Hrest as <-.
Qed.

Lemma list_sort_perm l l' : list_sort lt key l = Ok l' → l' ≡ₚ l.
Proof.
  revert l'. induction l as [|x l IH]; simpl; intros l'.
  - by intros [= <-].
  - intros (s & Hs & Hins)%bind_Ok.
    rewrite (sort_insert_perm _ _ _ Hins). by rewrite (IH _ Hs).
Qed.

Lemma sort_insert_Raise x l e : sort_insert lt key x l = Raise e → e = TypeError.
Proof.
  induction l as [|y l IH]; simpl; [done|].
  destruct (lt (key y) (key x)) as [[]|e'] eqn:Hlt; simpl.
  - destruct (sort_insert lt key x l); simpl; [done|]. intros [= <-]. by apply IH.
  - done.
  - intros [= <-]. by eapply lt_Raise.
Qed.

Lemma list_sort_Raise l e : list_sort lt key l = Raise e → e = TypeError.
Proof.
  induction l as [|x l IH]; simpl; [done|].
  destruct (list_sort lt key l) as [s|e']; simpl.
  - apply sort_insert_Raise.
  - intros [= <-]. by apply IH.
Qed.

Lemma sort_insert_same_kind k x l :
  Forall (same_kind key k) (x :: l) →
  sort_insert lt key x l = Ok (insert_by rank x l).
Proof.
  intros Hall. apply Forall_cons in Hall as [[Hfx Hkx] Hall].
  induction Hall as [|y l [Hfy Hky] Hall IH]; simpl; [done|].
  rewrite lt_spec, Hkx, Hky by done.
  rewrite Bool.eqb_reflx. simpl.
  destruct (rank_of (key y) <? rank_of (key x)); [|done].
  by rewrite IH.
Qed.

Lemma list_sort_same_kind k l :
  Forall (same_kind key k) l → list_sort lt key l = Ok (sort_by rank l).
Proof.
  induction 1 as [|x l Hx Hall IH]; simpl; [done|].
  rewrite IH. simpl. apply (sort_insert_same_kind k).
  constructor; [done|]. by rewrite sort_by_perm.
Qed.

Lemma list_sort_Ok_kind l l' :
  list_sort lt key l = Ok l' →
  (length l ≤ 1)%nat ∨ ∃ k, Forall (λ a, kind_of (key a) = Some k) l.
Proof.
  revert l'. induction l as [|x l IH]; simpl; intros l'; [left; lia|].
  intros (s & Hs & Hins)%bind_Ok.
  destruct l as [|y0 l]; [left; simpl; lia|]. right.
  pose proof (list_sort_perm _ _ Hs) as Hperm.
  destruct s as [|y s].
  { apply Permutation_length in Hperm. done. }
  simpl in Hins. apply bind_Ok in Hins as (b & Hlt & _).
  apply lt_Ok_kind in Hlt as (k & Hky & Hkx).
  exists k. constructor; [done|].
  assert (y ∈ y0 :: l) as Hy by (rewrite <- Hperm; left).
  destruct (IH _ Hs) as [Hlen | (k' & Hall)].
  - destruct l; [|simpl in Hlen; lia].
    apply list_elem_of_singleton in Hy as ->. by constructor.
  - rewrite Forall_forall in Hall. pose proof (Hall _ Hy) as Hk'.
    rewrite Hky in Hk'. injection Hk' as ->. by apply Forall_forall.
Qed.

Lemma list_sort_Ok_inv l l' :
  Forall (λ a, fixed_key (key a)) l →
  list_sort lt key l = Ok l' → l' = sort_by rank l.
Proof.
  intros Hfixed Hs.
  destruct (list_sort_Ok_kind _ _ Hs) as [Hlen | (k & Hall)].
  - destruct l as [|x [|y l]]; simpl in *; [congruence | congruence | lia].
  - assert (Forall (same_kind key k) l) as Hsame.
    { rewrite Forall_forall in *. split; auto. }
    rewrite (list_sort_same_kind k) in Hs by done. congruence.
Qed.

Lemma list_sort_None_key l a b :
  a ∈ l → b ∈ l → key a = None → is_Some (key b) →
  list_sort lt key l = Raise TypeError.
Proof.
  intros Ha Hb Hka Hkb.
  destruct (list_sort lt key l) as [l'|e] eqn:Hs.
  - exfalso. destruct (list_sort_Ok_kind _ _ Hs) as [Hlen | (k & Hall)].
    + destruct l as [|x [|y l]]; simpl in Hlen; [inversion Ha| |lia].
      apply list_elem_of_singleton in Ha as ->, Hb as ->.
      rewrite Hka in Hkb. by destruct Hkb.
    + rewrite Forall_forall in Hall. specialize (Hall _ Ha).
      by rewrite Hka in Hall.
  - by rewrite (list_sort_Raise _ _ Hs).
Qed.

Lemma StronglySorted_impl_in (R R' : A → A → Prop) l :
  (∀ a b, a ∈ l → b ∈ l → R a b → R' a b) →
  StronglySorted R l → StronglySorted R' l.
Proof.
  intros Himpl Hs. induction Hs as [|x l Hs IH Hall]; constructor.
  - apply IH. intros a b Ha Hb. apply Himpl; by right.
  - rewrite Forall_forall in *. intros b Hb.
    apply Himpl; [left | by right | by apply Hall].
Qed.

Lemma filter_iff_in (P Q : A → Prop) `{∀ a, Decision (P a)} `{∀ a, Decision (Q a)} (l : list A) :
  (∀ a, a ∈ l → P a ↔ Q a) → filter P l = filter Q l.
Proof.
  induction l as [|x l IH]; intros Hiff; [done|].
  rewrite !filter_cons.
  rewrite IH by (intros a Ha; apply Hiff; by right).
  pose proof (Hiff x ltac:(left)) as Hx.
  destruct (decide (P x)), (decide (Q x)); tauto || done.
Qed.

Lemma key_eqb_same_kind k a b :
  fixed_key a → kind_of a = Some k → fixed_key b → kind_of b = Some k →
  key_eqb a b = true ↔ rank_of b = rank_of a.
Proof.
  intros Hfa Hka Hfb Hkb. unfold key_eqb.
  rewrite !lt_spec, Hka, Hkb, Bool.eqb_reflx by done.
  destruct (Z.ltb_spec (rank_of a) (rank_of b)), (Z.ltb_spec (rank_of b) (rank_of a));
    split; intros; done || lia.
Qed.

Lemma list_sort_sorted l l' :
  Forall (λ a, fixed_key (key a)) l →
  list_sort lt key l = Ok l' →
  StronglySorted (λ a b, key_le (key a) (key b)) l'.
Proof.
  intros Hfixed Hs.
  pose proof (list_sort_perm _ _ Hs) as Hperm.
  destruct (list_sort_Ok_kind _ _ Hs) as [Hlen | (k & Hall)].
  - apply Permutation_length in Hperm.
    destruct l' as [|x [|y l']]; simpl in *; [constructor| |lia].
    repeat constructor.
  - rewrite (list_sort_Ok_inv _ _ Hfixed Hs) in *.
    eapply StronglySorted_impl_in; [|apply (sort_by_sorted rank)].
    rewrite Forall_forall in Hall, Hfixed.
    intros a b Ha Hb Hle. rewrite Hperm in Ha, Hb.
    unfold key_le. rewrite lt_spec by auto.
    rewrite (Hall _ Ha), (Hall _ Hb), Bool.eqb_reflx.
    f_equal. unfold rank_le in Hle. apply Z.ltb_ge. done.
Qed.

Lemma list_sort_stable l l' a :
  Forall (λ a, fixed_key (key a)) l →
  list_sort lt key l = Ok l' →
  a ∈ l →
  filter (λ b, Is_true (key_eqb (key a) (key b))) l'
  = filter (λ b, Is_true (key_eqb (key a) (key b))) l.
Proof.
  intros Hfixed Hs Ha.
  pose proof (list_sort_perm _ _ Hs) as Hperm.
  destruct (list_sort_Ok_kind _ _ Hs) as [Hlen | (k & Hall)].
  - destruct l as [|x [|y l]]; simpl in *; [congruence | congruence | lia].
  - rewrite (list_sort_Ok_inv _ _ Hfixed Hs) in *.
    rewrite Forall_forall in Hall, Hfixed.
    rewrite (filter_iff_in _ (λ b, rank b = rank a) (sort_by rank l)).
    2:{ intros b Hb. rewrite Hperm in Hb. rewrite Is_true_true.
        apply (key_eqb_same_kind k); auto. }
    rewrite (filter_iff_in _ (λ b, rank b = rank a) l).
    2:{ intros b Hb. rewrite Is_true_true.
        apply (key_eqb_same_kind k); auto. }
    apply (sort_by_filter rank).
Qed.

End SortFacts.

(** ** Records and responses *)

Ltac invert_binds :=
  repeat match goal with
         | H : _ ≫= _ = Ok _ |- _ =>
             let a := fresh "a" in
             let Ha := fresh "Ha" in
             apply bind_Ok in H as (a & Ha & H)
         end.

Section RecordFacts.
Context `{StrMethods} `{Pydantic} `{TzDatabase}.

Lemma dict_lookup_set_ne k k' v d :
  k ≠ k' → dict_lookup k (dict_set k' v d) = dict_lookup k d.
Proof.
  intros Hne. induction d as [|[k0 v0] d IH]; simpl.
  - destruct (String.eqb_spec k k'); done.
  - destruct (String.eqb_spec k' k0) as [->|Hk0]; simpl.
    + destruct (String.eqb_spec k k0); done.
    + destruct (String.eqb_spec k k0); done.
Qed.

Lemma is_competition_time_category d d' :
  dict_lookup "category" d' = dict_lookup "category" d →
  is_competition_time d' = is_competition_time d.
Proof. unfold is_competition_time, dict_get. by intros ->. Qed.

Lemma parse_price_category d d' :
  parse_price d = Ok d' → dict_lookup "category" d' = dict_lookup "category" d.
Proof.
  unfold parse_price. destruct (dict_lookup "price" d) as [[]|]; try by intros [= <-].
  intros (m & _ & [= <-])%bind_Ok. by apply dict_lookup_set_ne.
Qed.

(** A record that [is_competition_time] classifies as a competition is never
    turned into a [TeeTime], whatever its [available_slots]. *)
Lemma competition_never_promoted course_uuid players item tee_time :
  is_competition_time item = Ok true →
  parse_tee_time course_uuid players (VDict item) ≠ Ok (Some tee_time).
Proof.
  intros Hcomp Hp. unfold parse_tee_time in Hp. invert_binds.
  match goal with Hge : value_ge_int _ _ = Ok ?b |- _ => destruct b end;
    [|discriminate].
  invert_binds.
  match goal with Hc : is_competition_time ?d = Ok ?b |- _ =>
    rewrite (is_competition_time_category item d) in Hc
  end.
  - rewrite Hcomp in *. by simplify_eq.
  - erewrite parse_price_category by done. by apply dict_lookup_set_ne.
Qed.

(** An absent, null or empty category is no competition. *)
Lemma is_competition_time_no_category d :
  truthy (dict_get d "category" (VDict [])) = false →
  is_competition_time d = Ok false.
Proof. unfold is_competition_time. by intros ->. Qed.

(** [is_competition_time] returns [True] exactly when the category is a
    non-empty dict whose [description] and [custom_name] are strs (or
    absent) and the lower-cased text of one of them contains the marker. *)
Lemma is_competition_time_true_iff d :
  is_competition_time d = Ok true ↔
  ∃ category description custom_name,
    dict_lookup "category" d = Some (VDict category) ∧ category ≠ []
    ∧ dict_get category "description" (VStr "") = VStr description
    ∧ dict_get category "custom_name" (VStr "") = VStr custom_name
    ∧ (is_infix "tävling" (str_lower description) = true
       ∨ is_infix "tävling" (str_lower custom_name) = true).
Proof.
  unfold is_competition_time.
  change (dict_get d "category" (VDict []))
    with (default (VDict []) (dict_lookup "category" d)).
  split.
  - destruct (dict_lookup "category" d) as [c|]; [|discriminate]. simpl.
    destruct (truthy c) eqn:Htruthy; [|discriminate]. simpl.
    destruct c as [ |b|z|q|s|l|category|m|tc]; simpl; try discriminate.
    destruct (dict_get category "description" (VStr "")) eqn:Hd; try discriminate.
    destruct (dict_get category "custom_name" (VStr "")) eqn:Hn; try discriminate.
    simpl. intros Hor. eexists _, _, _. repeat split; try done.
    + by destruct category.
    + destruct (is_infix _ (str_lower _)); [by left|].
      destruct (is_infix _ (str_lower _)); [by right|discriminate].
  - intros (category & description & custom_name & Hcat & Hne & Hd & Hn & Hor).
    rewrite Hcat. cbn [default from_option id].
    assert (truthy (VDict category) = true) as -> by (by destruct category).
    cbn [negb value_get]. rewrite Hd, Hn. simpl.
    destruct Hor as [-> | ->]; [done|]. by rewrite orb_true_r.
Qed.

Lemma is_infix_spec needle hay :
  is_infix needle hay = true ↔
  ∃ before after, hay = String.append before (String.append needle after).
Proof.
  assert (∀ n h, String.prefix n h = true ↔ ∃ after, h = String.append n after)
    as Hprefix.
  { induction n as [|c n IH]; intros h.
    - split; [intros _; by exists h | by destruct h].
    - destruct h as [|c' h]; simpl.
      { split; [done | intros [after Ha]; discriminate]. }
      destruct (Ascii.ascii_dec c c') as [->|Hne].
      + rewrite IH. split; intros [after Ha]; exists after.
        * by rewrite Ha.
        * change (String c' h = String c' (n +:+ after)) in Ha. congruence.
      + split; [done|]. intros [after Ha].
        change (String c' h = String c (n +:+ after)) in Ha. congruence. }
  induction hay as [|c hay IH]; cbn [is_infix].
  - rewrite orb_false_r, Hprefix. split.
    + intros [after ->]. by exists "", after.
    + intros ([|] & after & Heq); [eauto | discriminate].
  - rewrite orb_true_iff, Hprefix, IH. split.
    + intros [[after ->] | (before & after & ->)].
      * by exists "", after.
      * by exists (String c before), after.
    + intros ([|c' before] & after & Heq).
      * left. eauto.
      * right. change (String c hay = String c' (before +:+ needle +:+ after)) in Heq.
        injection Heq as -> ->. eauto.
Qed.

(** C3.  On a record whose category has the custom name of a competition
    and a null description, [is_competition_time] does not return: reading
    [lower] of [None] raises [AttributeError], whatever [str.lower] does. *)
Theorem competition_with_null_description_raises :
  is_competition_time
    [("uuid", VStr "t1"); ("available_slots", VInt 4);
     ("category", VDict [("description", VNone); ("custom_name", VStr "Tävling")])]
  = Raise AttributeError.
Proof. reflexivity. Qed.

Lemma value_ge_int_below v q players :
  number_of v = Some q → (q < inject_Z players)%Q →
  value_ge_int v players = Ok false.
Proof.
  unfold value_ge_int. intros -> Hlt. f_equal.
  destruct (Qle_bool (inject_Z players) q) eqn:Hle; [|done].
  apply Qle_bool_iff in Hle. exfalso. by eapply Qlt_not_le.
Qed.

(** C4.  A record whose [available_slots] (0 when the key is absent) is a
    number below the requested player count is passed over without an
    exception, and the loop over the batch appends what it appends without
    that record. *)
Theorem too_few_slots_excluded course_uuid players item q before after all_tee_times :
  number_of (dict_get item "available_slots" (VInt 0)) = Some q →
  (q < inject_Z players)%Q →
  parse_tee_time course_uuid players (VDict item) = Ok None
  ∧ foldl (append_tee_time course_uuid players) all_tee_times
      (before ++ VDict item :: after)
    = foldl (append_tee_time course_uuid players) all_tee_times (before ++ after).
Proof.
  intros Hnum Hlt.
  assert (parse_tee_time course_uuid players (VDict item) = Ok None) as Hskip.
  { unfold parse_tee_time. by rewrite (value_ge_int_below _ _ _ Hnum Hlt). }
  split; [done|].
  rewrite !foldl_app. simpl. unfold append_tee_time at 2. by rewrite Hskip.
Qed.

Lemma value_ge_int_at_least z players :
  players <= z → value_ge_int (VInt z) players = Ok true.
Proof.
  intros Hle. unfold value_ge_int. simpl. f_equal.
  apply Qle_bool_iff. by rewrite <- Zle_Qle.
Qed.

Lemma TeeTimeCourse_init_typed id uuid name club_name :
  TeeTimeCourse_init
    [("id", VInt id); ("uuid", VStr uuid); ("name", VStr name);
     ("club_name", VStr club_name)]
  = Ok {| TeeTimeCourse.id := id; TeeTimeCourse.uuid := uuid;
          TeeTimeCourse.name := name; TeeTimeCourse.club_name := Some club_name |}.
Proof.
  unfold TeeTimeCourse_init, required_field, optional_field, optional_value, validated.
  simpl. by rewrite validate_int_int, !validate_str_str.
Qed.

(** C8.  The record sequence of a response: a list is taken as it is; of an
    object, what is under [hydra:member], else what is under [items], else
    the empty list.  So the response [envelope_example], for at most two
    players and a pydantic that reads its timestamp, gives exactly one
    [TeeTime], whose uuid is [t1]. *)
Theorem envelope_shapes :
  (∀ l, response_items (VList l) = Ok (VList l))
  ∧ (∀ d v, dict_lookup "hydra:member" d = Some v →
            response_items (VDict d) = Ok v)
  ∧ (∀ d v, dict_lookup "hydra:member" d = None → dict_lookup "items" d = Some v →
            response_items (VDict d) = Ok v)
  ∧ (∀ d, dict_lookup "hydra:member" d = None → dict_lookup "items" d = None →
          response_items (VDict d) = Ok (VList []))
  ∧ (∀ client_get course_uuid start_datetime end_datetime players limit page from_time,
       validate_datetime (VStr "2025-01-15T07:00:00Z") = Some from_time →
       players <= 2 →
       client_get (tee_times_params start_datetime end_datetime players limit page
                     course_uuid)
       = Ok {| Response.status_code := 200; Response.json := Ok envelope_example |} →
       ∃ tee_time,
         get_available_times client_get [course_uuid] start_datetime end_datetime
           players limit page = Ok [tee_time]
         ∧ TeeTime.uuid tee_time = "t1").
Proof.
  repeat split.
  - intros d v Hh. unfold response_items, value_get, dict_get. simpl. by rewrite Hh.
  - intros d v Hh Hi. unfold response_items, value_get, dict_get. simpl.
    by rewrite Hh, Hi.
  - intros d Hh Hi. unfold response_items, value_get, dict_get. simpl.
    by rewrite Hh, Hi.
  - intros client_get course_uuid start_datetime end_datetime players limit page
      from_time Hfrom Hplayers Hget.
    unfold get_available_times, collect_tee_times. simpl.
    unfold query_course, fetch_items. rewrite Hget. simpl.
    unfold append_tee_time, parse_tee_time.
    match goal with
    | |- context [value_ge_int ?v players] => change v with (VInt 2)
    end.
    rewrite (value_ge_int_at_least 2 players Hplayers). cbn [mbind Exc_bind].
    unfold course_info.
    match goal with
    | |- context [dict_lookup "course" ?d] =>
        change (dict_lookup "course" d) with (@None value)
    end.
    cbv beta iota. rewrite TeeTimeCourse_init_typed. cbn [mbind Exc_bind].
    unfold parse_price.
    match goal with
    | |- context [dict_lookup "price" ?d] =>
        change (dict_lookup "price" d) with (@None value)
    end.
    cbn [mbind Exc_bind]. rewrite is_competition_time_no_category by reflexivity.
    cbn [mbind Exc_bind negb].
    unfold TeeTime_init, required_field, optional_field, optional_value, validated.
    simpl. rewrite validate_str_str, Hfrom, !validate_int_int. simpl.
    eexists. split; reflexivity.
Qed.

End RecordFacts.

(** ** [get_available_times] *)

Section AggregationFacts.
Context `{StrMethods} `{Pydantic} `{TzDatabase}.

Lemma optional_datetime_fixed arg o :
  optional_value validate_datetime arg None = Ok o → fixed_key o.
Proof.
  unfold optional_value, validated.
  destruct arg as [v|]; [|by intros [= <-]].
  destruct (validate_datetime v) as [dt|] eqn:Hv.
  - destruct v; simpl; intros [= <-]; try exact I;
      simpl; by eapply validate_datetime_fixed.
  - destruct v; simpl; try discriminate. by intros [= <-].
Qed.

Lemma TeeTime_init_fixed kwargs tee_time :
  TeeTime_init kwargs = Ok tee_time → fixed_key (TeeTime.from_time tee_time).
Proof.
  unfold TeeTime_init. intros Hinit. invert_binds.
  injection Hinit as <-. simpl. by eapply optional_datetime_fixed.
Qed.

Lemma parse_tee_time_fixed course_uuid players item tee_time :
  parse_tee_time course_uuid players item = Ok (Some tee_time) →
  fixed_key (TeeTime.from_time tee_time).
Proof.
  unfold parse_tee_time. destruct item; try discriminate.
  intros Hp. invert_binds.
  match goal with Hge : value_ge_int _ _ = Ok ?b |- _ => destruct b end;
    [|discriminate].
  invert_binds.
  match goal with Hc : is_competition_time _ = Ok ?b |- _ => destruct b end;
    simpl in Hp; [discriminate|].
  apply fmap_Ok in Hp as (t & Ht & [= ->]). by eapply TeeTime_init_fixed.
Qed.

Abbreviation fixed_start := (λ t, fixed_key (TeeTime.from_time t)).

Lemma append_tee_time_fixed course_uuid players all_tee_times item :
  Forall fixed_start all_tee_times →
  Forall fixed_start (append_tee_time course_uuid players all_tee_times item).
Proof.
  intros Hall. unfold append_tee_time.
  destruct (parse_tee_time _ _ _) as [[t|]|] eqn:Hp; try done.
  apply Forall_app. split; [done|]. constructor; [|constructor].
  by eapply parse_tee_time_fixed.
Qed.

Lemma query_course_fixed client_get players all_tee_times params :
  Forall fixed_start all_tee_times →
  Forall fixed_start (query_course client_get players all_tee_times params).
Proof.
  intros Hall. unfold query_course.
  destruct (fetch_items _ _) as [items|e]; [|by destruct (is_HTTPError e)].
  revert all_tee_times Hall. induction items as [|item items IH]; simpl; [done|].
  intros acc Hacc. apply IH. by apply append_tee_time_fixed.
Qed.

Lemma collect_tee_times_fixed client_get course_uuids start_datetime end_datetime
    players limit page :
  Forall fixed_start
    (collect_tee_times client_get course_uuids start_datetime end_datetime
       players limit page).
Proof.
  unfold collect_tee_times.
  assert (Forall fixed_start []) as Hnil by constructor.
  revert Hnil. generalize (@nil TeeTime.t).
  induction course_uuids as [|u us IH]; simpl; intros acc Hacc; [done|].
  apply IH. by apply query_course_fixed.
Qed.

Lemma query_course_failure client_get players all_tee_times params e :
  fetch_items client_get params = Raise e →
  query_course client_get players all_tee_times params = all_tee_times.
Proof. unfold query_course. intros ->. by destruct (is_HTTPError e). Qed.

Lemma collect_tee_times_skip client_get before failing after start_datetime
    end_datetime players limit page e :
  fetch_items client_get
    (tee_times_params start_datetime end_datetime players limit page failing)
  = Raise e →
  collect_tee_times client_get (before ++ failing :: after) start_datetime
    end_datetime players limit page
  = collect_tee_times client_get (before ++ after) start_datetime end_datetime
      players limit page.
Proof.
  intros Hfail. unfold collect_tee_times.
  rewrite !foldl_app. simpl. by rewrite (query_course_failure _ _ _ _ _ Hfail).
Qed.

(** C2.  In a query over several courses, a course whose request fails (the
    request itself, a status outside 2xx, a body that is no JSON, or data of
    no known shape: whatever makes [fetch_items] raise) contributes no
    record, and the result is the one obtained from the other courses
    alone. *)
Theorem transport_failure_isolated client_get before failing after
    start_datetime end_datetime players limit page e :
  fetch_items client_get
    (tee_times_params start_datetime end_datetime players limit page failing)
  = Raise e →
  get_available_times client_get (before ++ failing :: after) start_datetime
    end_datetime players limit page
  = get_available_times client_get (before ++ after) start_datetime end_datetime
      players limit page.
Proof.
  intros Hfail. unfold get_available_times.
  by rewrite (collect_tee_times_skip _ _ _ _ _ _ _ _ _ _ Hfail).
Qed.

(** The three transport-level failures: the request itself fails, the
    status is outside 2xx, the body is no JSON text. *)
Lemma fetch_items_request_error client_get params e :
  client_get params = Raise e → fetch_items client_get params = Raise e.
Proof. unfold fetch_items. by intros ->. Qed.

Lemma fetch_items_status_error client_get params response :
  client_get params = Ok response →
  (Response.status_code response < 200 ∨ 299 < Response.status_code response) →
  fetch_items client_get params
  = Raise (HTTPStatusError (Response.status_code response)).
Proof.
  unfold fetch_items, raise_for_status. intros -> Hcode. simpl.
  destruct (Z.leb_spec 200 (Response.status_code response)),
    (Z.leb_spec (Response.status_code response) 299); simpl; done || lia.
Qed.

Lemma fetch_items_json_error client_get params response e :
  client_get params = Ok response →
  raise_for_status response = Ok tt →
  Response.json response = Raise e →
  fetch_items client_get params = Raise e.
Proof. unfold fetch_items. intros -> Hs Hj. simpl. rewrite Hs. simpl. by rewrite Hj. Qed.

Lemma get_available_times_same_kind client_get course_uuids start_datetime
    end_datetime players limit page k :
  let all_tee_times :=
    collect_tee_times client_get course_uuids start_datetime end_datetime
      players limit page in
  Forall (λ t, kind_of (TeeTime.from_time t) = Some k) all_tee_times →
  get_available_times client_get course_uuids start_datetime end_datetime
    players limit page
  = Ok (sort_by (λ t, rank_of (TeeTime.from_time t)) all_tee_times).
Proof.
  cbv zeta. intros Hkind. unfold get_available_times.
  apply (list_sort_same_kind TeeTime.from_time k).
  pose proof (collect_tee_times_fixed client_get course_uuids start_datetime
                end_datetime players limit page) as Hfixed.
  rewrite Forall_forall in *. split; auto.
Qed.

(** C5.  Whenever [get_available_times] returns, the sequence returned is
    non-decreasing by start time, it holds the collected records and no
    others, and the records that start at the same time as any given record
    keep the order in which they were collected.  It does return when every
    collected record has a start time and these are all aware, or all
    naive. *)
Theorem result_sorted_by_start_time client_get course_uuids start_datetime
    end_datetime players limit page :
  let all_tee_times :=
    collect_tee_times client_get course_uuids start_datetime end_datetime
      players limit page in
  (∀ k, Forall (λ t, kind_of (TeeTime.from_time t) = Some k) all_tee_times →
        ∃ result,
          get_available_times client_get course_uuids start_datetime
            end_datetime players limit page = Ok result)
  ∧ (∀ result,
       get_available_times client_get course_uuids start_datetime end_datetime
         players limit page = Ok result →
       StronglySorted starts_no_later result
       ∧ result ≡ₚ all_tee_times
       ∧ ∀ a, a ∈ all_tee_times →
           filter (λ b, Is_true (same_start a b)) result
           = filter (λ b, Is_true (same_start a b)) all_tee_times).
Proof.
  cbv zeta. split.
  - intros k Hkind. eexists.
    by apply (get_available_times_same_kind _ _ _ _ _ _ _ k).
  - intros result Hsort. unfold get_available_times in Hsort.
    pose proof (collect_tee_times_fixed client_get course_uuids start_datetime
                  end_datetime players limit page) as Hfixed.
    split; [|split].
    + by eapply (list_sort_sorted TeeTime.from_time).
    + by eapply list_sort_perm.
    + intros a Ha. by eapply (list_sort_stable TeeTime.from_time).
Qed.

(** C10.  [get_available_times] is partial: when the records that reach
    [all_tee_times] include one without a start time and one with a start
    time, the final sort compares [None] and the call raises [TypeError]
    instead of returning the records. *)
Theorem missing_start_time_raises client_get course_uuids start_datetime
    end_datetime players limit page a b :
  a ∈ collect_tee_times client_get course_uuids start_datetime end_datetime
        players limit page →
  b ∈ collect_tee_times client_get course_uuids start_datetime end_datetime
        players limit page →
  TeeTime.from_time a = None →
  is_Some (TeeTime.from_time b) →
  get_available_times client_get course_uuids start_datetime end_datetime
    players limit page = Raise TypeError.
Proof.
  intros Ha Hb Hnone Hsome. unfold get_available_times.
  exact (list_sort_None_key TeeTime.from_time _ a b Ha Hb Hnone Hsome).
Qed.

End AggregationFacts.

(** ** The [availability] command *)

Section CliFacts.
Context `{StrMethods} `{Pydantic} `{TzDatabase} `{DateParsers} `{ExceptionText}.

Lemma full_course_info_Ok course :
  full_course_info course = Ok (course_projection course).
Proof. apply TeeTimeCourse_init_typed. Qed.

Lemma map_course_info_Ok (course_map : gmap string Course.t) tee_time :
  map_course_info course_map tee_time
  = Ok match found_course_uuid tee_time with
       | Some course_uuid =>
           match course_map !! course_uuid with
           | Some course =>
               TeeTime.set_course tee_time (Some (course_projection course))
           | None => tee_time
           end
       | None => tee_time
       end.
Proof.
  unfold map_course_info.
  destruct (found_course_uuid tee_time) as [u|]; [|done].
  destruct (course_map !! u) as [course|]; [|done].
  by rewrite full_course_info_Ok.
Qed.

Lemma course_map_of_keyed courses : keyed_by_uuid (course_map_of courses).
Proof.
  unfold course_map_of.
  assert (keyed_by_uuid (∅ : gmap string Course.t)) as Hempty.
  { intros k course. by rewrite lookup_empty. }
  revert Hempty. generalize (∅ : gmap string Course.t).
  induction courses as [|c courses IH]; simpl; intros m Hm; [done|].
  apply IH. intros k course. rewrite lookup_insert.
  case_decide as Hk; [|apply Hm]. by intros [= <-].
Qed.

Lemma found_course_uuid_set tee_time info :
  TeeTimeCourse.uuid info ≠ "" →
  found_course_uuid (TeeTime.set_course tee_time (Some info))
  = Some (TeeTimeCourse.uuid info).
Proof.
  intros Hne. unfold found_course_uuid. simpl.
  by destruct (String.eqb_spec (TeeTimeCourse.uuid info) "").
Qed.

Lemma found_course_uuid_nonempty tee_time u :
  found_course_uuid tee_time = Some u → u ≠ "".
Proof.
  unfold found_course_uuid. destruct (TeeTime.course tee_time) as [c|]; [|done].
  destruct (String.eqb_spec (TeeTimeCourse.uuid c) ""); simpl; [done|].
  by intros [= <-].
Qed.

Lemma map_course_info_idempotent (course_map : gmap string Course.t) tee_time once :
  keyed_by_uuid course_map →
  map_course_info course_map tee_time = Ok once →
  map_course_info course_map once = Ok once.
Proof.
  intros Hkeyed. rewrite !map_course_info_Ok. intros [= <-]. f_equal.
  destruct (found_course_uuid tee_time) as [u|] eqn:Hfound.
  - destruct (course_map !! u) as [course|] eqn:Hlookup.
    + pose proof (Hkeyed _ _ Hlookup) as Huuid.
      rewrite found_course_uuid_set; simpl; rewrite Huuid;
        [|by eapply found_course_uuid_nonempty].
      by rewrite Hlookup.
    + by rewrite Hfound, Hlookup.
  - by rewrite Hfound.
Qed.

Lemma map_all_course_info_Ok (course_map : gmap string Course.t) tee_times :
  ∃ enriched, map_all_course_info course_map tee_times = Ok enriched
    ∧ Forall2 (λ t t', map_course_info course_map t = Ok t') tee_times enriched.
Proof.
  induction tee_times as [|t ts (enriched & Hts & Hall)];
    cbn [map_all_course_info].
  - exists []. by split; [|constructor].
  - rewrite (map_course_info_Ok course_map t). cbn [mbind Exc_bind].
    rewrite Hts. cbn [fmap Exc_fmap].
    eexists. split; [done|]. constructor; [|done]. apply map_course_info_Ok.
Qed.

Lemma map_all_course_info_idempotent (course_map : gmap string Course.t)
    tee_times once :
  keyed_by_uuid course_map →
  map_all_course_info course_map tee_times = Ok once →
  map_all_course_info course_map once = Ok once.
Proof.
  intros Hkeyed. revert once.
  induction tee_times as [|t ts IH]; cbn [map_all_course_info]; intros once.
  - by intros [= <-].
  - intros (t' & Ht & (ts' & Hts & ->)%fmap_Ok)%bind_Ok.
    cbn [map_all_course_info].
    rewrite (map_course_info_idempotent _ _ _ Hkeyed Ht). cbn [mbind Exc_bind].
    by rewrite (IH _ Hts).
Qed.

(** C6.  Enrichment is idempotent: with the mapping that the command builds
    from any list of courses, the loop of lines 575-591 run on its own
    result changes nothing. *)
Theorem enrichment_idempotent courses tee_times :
  ∃ once,
    map_all_course_info (course_map_of courses) tee_times = Ok once
    ∧ map_all_course_info (course_map_of courses) once = Ok once.
Proof.
  destruct (map_all_course_info_Ok (course_map_of courses) tee_times)
    as (once & Honce & _).
  exists once. split; [done|].
  eapply map_all_course_info_idempotent; [apply course_map_of_keyed | done].
Qed.

(** C7.  Enrichment changes no field of a tee time other than [course], and
    it leaves a tee time as it is when no UUID is found for it or the UUID
    found is no key of the mapping. *)
Theorem unmatched_course_unchanged (course_map : gmap string Course.t) tee_times :
  ∃ enriched,
    map_all_course_info course_map tee_times = Ok enriched
    ∧ Forall2 (λ t t',
                 t' = TeeTime.set_course t (TeeTime.course t')
                 ∧ (unmatched course_map t → t' = t))
        tee_times enriched.
Proof.
  destruct (map_all_course_info_Ok course_map tee_times) as (enriched & He & Hall).
  exists enriched. split; [done|].
  eapply Forall2_impl; [exact Hall|]. simpl.
  intros t t'. rewrite map_course_info_Ok. intros [= <-]. unfold unmatched.
  destruct (found_course_uuid t) as [u|]; [|by destruct t].
  destruct (course_map !! u) as [course|]; [|by destruct t].
  split; [done|]. discriminate.
Qed.


Lemma parse_datetime_arg_aware date_str default_time dt :
  parse_datetime_arg date_str default_time = Some dt → is_Some (tz dt).
Proof.
  unfold parse_datetime_arg.
  destruct (dateutil_parse date_str) as [d|].
  - destruct (tz d) eqn:Htz; intros [= <-]; simpl; [rewrite Htz|]; eauto.
  - destruct (strptime_date date_str); [|done]. intros [= <-]. simpl. eauto.
Qed.

Lemma datetime_lt_aware a b :
  is_Some (tz a) → is_Some (tz b) → ∃ r, datetime_lt a b = Ok r.
Proof.
  intros [za Ha] [zb Hb]. unfold datetime_lt. rewrite Ha, Hb.
  case_decide; eauto.
Qed.

Lemma datetime_lt_instants end_dt start_dt :
  is_Some (tz end_dt) → is_Some (tz start_dt) →
  rank_of (Some end_dt) < rank_of (Some start_dt) →
  same_offset_in_zone end_dt start_dt →
  datetime_lt end_dt start_dt = Ok true.
Proof.
  intros [ze Hze] [zs Hzs].
  unfold rank_of, same_offset_in_zone, utcoffset_of, datetime_lt.
  rewrite Hze, Hzs. intros Hlt Hsame.
  case_decide as Hz; f_equal; apply Z.ltb_lt; [|done].
  subst zs. specialize (Hsame eq_refl). lia.
Qed.


End CliFacts.

(** * More of the program

    Properties of the code around the claims: what becomes of single
    records, how the results of the courses are put together, the
    selection of courses, the [availability] command, and the display
    helpers. *)

(** ** Single records *)

Section MoreRecordFacts.
Context `{StrMethods} `{Pydantic} `{TzDatabase}.

Lemma dict_lookup_set_eq k v d : dict_lookup k (dict_set k v d) = Some v.
Proof.
  induction d as [|[k0 v0] d IH]; simpl.
  - by rewrite String.eqb_refl.
  - destruct (String.eqb_spec k k0) as [->|Hne]; simpl.
    + by rewrite String.eqb_refl.
    + by destruct (String.eqb_spec k k0).
Qed.

Lemma parse_price_lookup_ne k d d' :
  k ≠ "price" → parse_price d = Ok d' → dict_lookup k d' = dict_lookup k d.
Proof.
  intros Hk. unfold parse_price.
  destruct (dict_lookup "price" d) as [[]|]; try by intros [= <-].
  intros (m & _ & [= <-])%bind_Ok. by apply dict_lookup_set_ne.
Qed.

(** What the dict handed to [TeeTime] holds, when the item gets that far. *)
Lemma parse_tee_time_inv course_uuid players item tee_time :
  parse_tee_time course_uuid players (VDict item) = Ok (Some tee_time) →
  ∃ course kwargs,
    value_ge_int (dict_get item "available_slots" (VInt 0)) players = Ok true
    ∧ course_info course_uuid item = Ok course
    ∧ parse_price (dict_set "course" (VTeeTimeCourse course) item) = Ok kwargs
    ∧ is_competition_time kwargs = Ok false
    ∧ TeeTime_init kwargs = Ok tee_time.
Proof.
  unfold parse_tee_time. intros Hp. invert_binds.
  match goal with Hge : value_ge_int _ _ = Ok ?b |- _ => destruct b end;
    [|discriminate].
  invert_binds.
  match goal with Hc : is_competition_time _ = Ok ?b |- _ => destruct b end;
    simpl in Hp; [discriminate|].
  apply fmap_Ok in Hp as (t & Ht & [= ->]). eauto 10.
Qed.

Lemma kwargs_lookup item course kwargs k :
  k ≠ "price" → k ≠ "course" →
  parse_price (dict_set "course" (VTeeTimeCourse course) item) = Ok kwargs →
  dict_lookup k kwargs = dict_lookup k item.
Proof.
  intros Hp Hc Hk. rewrite (parse_price_lookup_ne _ _ _ Hp Hk).
  by apply dict_lookup_set_ne.
Qed.

Lemma skipped_item course_uuid players item before after all_tee_times :
  (∀ tee_time, parse_tee_time course_uuid players item ≠ Ok (Some tee_time)) →
  foldl (append_tee_time course_uuid players) all_tee_times (before ++ item :: after)
  = foldl (append_tee_time course_uuid players) all_tee_times (before ++ after).
Proof.
  intros Hskip. rewrite !foldl_app. simpl. unfold append_tee_time at 2.
  destruct (parse_tee_time course_uuid players item) as [[t|]|] eqn:Hp; try done.
  by destruct (Hskip t).
Qed.

(** X1.  A record of the answer that is not a JSON object, or is an object
    without the key [uuid], adds nothing to the result: the list built from
    the records around it is the list built without it.  ([item.get] fails
    on what is not a dict, and [TeeTime] requires [uuid]; the inner [except]
    of lines 222-224 passes over the record.) *)
Theorem record_without_uuid_dropped course_uuid players item before after all_tee_times :
  match item with
  | VDict d => dict_lookup "uuid" d = None
  | _ => True
  end →
  foldl (append_tee_time course_uuid players) all_tee_times (before ++ item :: after)
  = foldl (append_tee_time course_uuid players) all_tee_times (before ++ after).
Proof.
  intros Hitem. apply skipped_item. intros tee_time Hp.
  destruct item as [ | | | | | |d| |]; try discriminate.
  apply parse_tee_time_inv in Hp as (course & kwargs & _ & _ & Hk & _ & Hinit).
  unfold TeeTime_init in Hinit. invert_binds.
  match goal with Hu : required_field _ _ "uuid" = Ok _ |- _ =>
    unfold required_field in Hu;
    rewrite (kwargs_lookup d course kwargs "uuid") in Hu by done;
    by rewrite Hitem in Hu
  end.
Qed.

(** X2.  A record whose [price] is a number, a string, a boolean or a list
    adds nothing to the result: line 213 leaves such a price as it is, and
    [TeeTime] then rejects it, since the field is an optional [Money]. *)
Theorem record_with_scalar_price_dropped course_uuid players item price before after
    all_tee_times :
  dict_lookup "price" item = Some price →
  is_scalar_or_list price = true →
  foldl (append_tee_time course_uuid players) all_tee_times
    (before ++ VDict item :: after)
  = foldl (append_tee_time course_uuid players) all_tee_times (before ++ after).
Proof.
  intros Hprice Hscalar. apply skipped_item. intros tee_time Hp.
  apply parse_tee_time_inv in Hp as (course & kwargs & _ & _ & Hk & _ & Hinit).
  assert (kwargs = dict_set "course" (VTeeTimeCourse course) item) as ->.
  { unfold parse_price in Hk. rewrite dict_lookup_set_ne, Hprice in Hk by done.
    destruct price; try discriminate; by injection Hk. }
  unfold TeeTime_init in Hinit. invert_binds.
  match goal with Hu : optional_field _ _ "price" _ = Ok _ |- _ =>
    unfold optional_field in Hu;
    rewrite dict_lookup_set_ne, Hprice in Hu by done;
    by destruct price
  end.
Qed.

Lemma parse_tee_time_price course_uuid players item price tee_time :
  parse_tee_time course_uuid players (VDict item) = Ok (Some tee_time) →
  dict_lookup "price" item = Some (VDict price) →
  ∃ money, Money_init price = Ok money ∧ TeeTime.price tee_time = Some money.
Proof.
  intros Hp Hprice.
  apply parse_tee_time_inv in Hp as (course & kwargs & _ & _ & Hk & _ & Hinit).
  unfold parse_price in Hk. rewrite dict_lookup_set_ne, Hprice in Hk by done.
  apply bind_Ok in Hk as (money & Hmoney & [= <-]).
  exists money. split; [done|].
  unfold TeeTime_init in Hinit. invert_binds. injection Hinit as <-. simpl.
  match goal with Hu : optional_field _ _ "price" _ = Ok _ |- _ =>
    unfold optional_field in Hu; rewrite dict_lookup_set_eq in Hu;
    simpl in Hu; by injection Hu
  end.
Qed.

(** X3.  When a record becomes a tee time and its [price] is a JSON object,
    the price of the tee time is the [Money] built from that object (line
    214); in particular that construction did not fail. *)
Theorem price_object_parsed course_uuid players item price tee_time :
  parse_tee_time course_uuid players (VDict item) = Ok (Some tee_time) →
  dict_lookup "price" item = Some (VDict price) →
  ∃ money, Money_init price = Ok money ∧ TeeTime.price tee_time = Some money.
Proof. apply parse_tee_time_price. Qed.

(** X4.  Every tee time that is built carries a course.  When the record has
    no [course], or one that is not an object, it is the minimal reference
    of lines 208-210: id 0, the uuid that was queried, empty name and empty
    club name.  When the record has a [course] object without [uuid], the
    uuid of the reference is the one that was queried (lines 195-197). *)
Theorem course_reference_fallback course_uuid players item tee_time :
  parse_tee_time course_uuid players (VDict item) = Ok (Some tee_time) →
  match dict_lookup "course" item with
  | Some (VDict course) =>
      ∃ c, TeeTime.course tee_time = Some c
           ∧ (dict_lookup "uuid" course = None → TeeTimeCourse.uuid c = course_uuid)
  | _ =>
      TeeTime.course tee_time
      = Some {| TeeTimeCourse.id := 0; TeeTimeCourse.uuid := course_uuid;
                TeeTimeCourse.name := ""; TeeTimeCourse.club_name := Some "" |}
  end.
Proof.
  intros Hp.
  apply parse_tee_time_inv in Hp as (c & kwargs & _ & Hinfo & Hk & _ & Hinit).
  assert (TeeTime.course tee_time = Some c) as Hcourse.
  { unfold TeeTime_init in Hinit. invert_binds. injection Hinit as <-. simpl.
    match goal with Hu : optional_field _ _ "course" _ = Ok _ |- _ =>
      unfold optional_field in Hu;
      rewrite (parse_price_lookup_ne "course" _ _ ltac:(done) Hk),
        dict_lookup_set_eq in Hu;
      simpl in Hu; by injection Hu
    end. }
  unfold course_info in Hinfo.
  destruct (dict_lookup "course" item) as [[ | | | | | |course| |]|];
    try (rewrite TeeTimeCourse_init_typed in Hinfo; by injection Hinfo as <-).
  exists c. split; [done|]. intros Hno.
  apply bind_Ok in Hinfo as (club_name & _ & Hinit').
  unfold TeeTimeCourse_init in Hinit'. invert_binds. injection Hinit' as <-. simpl.
  match goal with Hu : required_field _ _ "uuid" = Ok _ |- _ =>
    unfold required_field, dict_get in Hu; simpl in Hu; rewrite Hno in Hu;
    unfold validated in Hu; rewrite validate_str_str in Hu; by injection Hu
  end.
Qed.

(** X5.  A record that [is_competition_time] recognises adds nothing to the
    result, whatever its available slots (lines 217-221). *)
Theorem competition_record_dropped course_uuid players item before after all_tee_times :
  is_competition_time item = Ok true →
  foldl (append_tee_time course_uuid players) all_tee_times
    (before ++ VDict item :: after)
  = foldl (append_tee_time course_uuid players) all_tee_times (before ++ after).
Proof.
  intros Hcomp. apply skipped_item. intros tee_time.
  by apply competition_never_promoted.
Qed.

(** X6.  For a record whose [category] is a non-empty object in which
    [description] and [custom_name], where present, are strings,
    [is_competition_time] returns, and returns [True] exactly when the
    lower-cased description or the lower-cased custom name contains
    "tävling" (lines 23-36). *)
Theorem competition_iff_marker item category description custom_name :
  dict_lookup "category" item = Some (VDict category) →
  category ≠ [] →
  dict_get category "description" (VStr "") = VStr description →
  dict_get category "custom_name" (VStr "") = VStr custom_name →
  ∃ b, is_competition_time item = Ok b
       ∧ (b = true ↔ contains_marker (str_lower description)
                     ∨ contains_marker (str_lower custom_name)).
Proof.
  intros Hcat Hne Hd Hn. unfold is_competition_time.
  change (dict_get item "category" (VDict []))
    with (default (VDict []) (dict_lookup "category" item)).
  rewrite Hcat. cbn [default from_option id].
  assert (truthy (VDict category) = true) as -> by (by destruct category).
  cbn [negb value_get]. rewrite Hd, Hn. cbn [mbind Exc_bind value_lower].
  exists (is_infix "tävling" (str_lower description)
          || is_infix "tävling" (str_lower custom_name)).
  split; [by destruct (_ || _)|].
  unfold contains_marker. by rewrite <- !is_infix_spec, orb_true_iff.
Qed.

End MoreRecordFacts.

(** ** The aggregate *)

Section MoreAggregationFacts.
Context `{StrMethods} `{Pydantic} `{TzDatabase}.

(** X7.  For a request of at least one player, a tee time built from a
    record with an integer [available_slots] keeps that number, the number
    is at least [players], and the property [is_available] of the tee time
    holds (client.py lines 189-190 with teetime.py lines 90-93). *)
Theorem enough_slots_is_available course_uuid players item slots tee_time :
  parse_tee_time course_uuid players (VDict item) = Ok (Some tee_time) →
  dict_lookup "available_slots" item = Some (VInt slots) →
  1 <= players →
  TeeTime.available_slots tee_time = Some slots
  ∧ players <= slots
  ∧ is_available tee_time = true.
Proof.
  intros Hp Hslots Hplayers.
  apply parse_tee_time_inv in Hp as (course & kwargs & Hge & _ & Hk & _ & Hinit).
  unfold dict_get in Hge. rewrite Hslots in Hge.
  unfold value_ge_int in Hge. simpl in Hge. injection Hge as Hge.
  apply Qle_bool_iff in Hge. rewrite <- Zle_Qle in Hge.
  assert (TeeTime.available_slots tee_time = Some slots) as Hfield.
  { unfold TeeTime_init in Hinit. invert_binds. injection Hinit as <-. simpl.
    match goal with Hu : optional_field _ _ "available_slots" _ = Ok _ |- _ =>
      unfold optional_field in Hu;
      rewrite (kwargs_lookup item course kwargs "available_slots") in Hu by done;
      rewrite Hslots in Hu; unfold optional_value, validated in Hu;
      rewrite validate_int_int in Hu; by injection Hu
    end. }
  repeat split; [done|done|].
  unfold is_available. rewrite Hfield. simpl. apply Z.ltb_lt. lia.
Qed.

Lemma append_tee_time_app course_uuid players all_tee_times item :
  append_tee_time course_uuid players all_tee_times item
  = all_tee_times ++ append_tee_time course_uuid players [] item.
Proof.
  unfold append_tee_time.
  destruct (parse_tee_time course_uuid players item) as [[t|]|];
    by rewrite ?app_nil_r.
Qed.

Lemma foldl_append_tee_time_app course_uuid players all_tee_times items :
  foldl (append_tee_time course_uuid players) all_tee_times items
  = all_tee_times ++ foldl (append_tee_time course_uuid players) [] items.
Proof.
  revert all_tee_times. induction items as [|item items IH]; intros acc; simpl.
  - by rewrite app_nil_r.
  - rewrite IH, (IH (append_tee_time _ _ [] _)), app_assoc.
    f_equal. apply append_tee_time_app.
Qed.

Lemma query_course_app client_get players all_tee_times params :
  query_course client_get players all_tee_times params
  = all_tee_times ++ query_course client_get players [] params.
Proof.
  unfold query_course. destruct (fetch_items client_get params) as [items|e].
  - apply foldl_append_tee_time_app.
  - destruct (is_HTTPError e); by rewrite app_nil_r.
Qed.

Lemma collect_from client_get course_uuids start_datetime end_datetime players
    limit page all_tee_times :
  foldl (λ all_tee_times course_uuid,
           query_course client_get players all_tee_times
             (tee_times_params start_datetime end_datetime players limit page
                course_uuid))
        all_tee_times course_uuids
  = all_tee_times
    ++ concat
         (map (λ course_uuid,
                 query_course client_get players []
                   (tee_times_params start_datetime end_datetime players limit
                      page course_uuid))
              course_uuids).
Proof.
  revert all_tee_times. induction course_uuids as [|u us IH]; intros acc; simpl.
  - by rewrite app_nil_r.
  - by rewrite IH, query_course_app, app_assoc.
Qed.

(** X8.  Before the sort, the collected list is the concatenation, in the
    order of [course_uuids], of what each course contributes on its own: a
    course contributes the same records whatever was collected before it
    (lines 158-234). *)
Theorem collected_in_course_order client_get course_uuids start_datetime
    end_datetime players limit page :
  collect_tee_times client_get course_uuids start_datetime end_datetime
    players limit page
  = concat
      (map (λ course_uuid,
              query_course client_get players []
                (tee_times_params start_datetime end_datetime players limit page
                   course_uuid))
           course_uuids).
Proof. unfold collect_tee_times. by rewrite collect_from. Qed.


(** X10.  Called with bounds that convert to UTC, [get_available_times]
    either returns a list or raises [TypeError]: no HTTP error, decoding
    error or validation error leaves it, whatever the server answers.  (A
    bound that does not convert raises [OverflowError] on lines 146-156,
    before the first request.) *)
Theorem returns_or_raises_TypeError client_get course_uuids start_datetime
    end_datetime players limit page :
  converts_to_utc start_datetime → converts_to_utc end_datetime →
  (∃ result,
     get_available_times client_get course_uuids start_datetime end_datetime
       players limit page = Ok result)
  ∨ get_available_times client_get course_uuids start_datetime end_datetime
      players limit page = Raise TypeError.
Proof.
  intros _ _.
  destruct (get_available_times client_get course_uuids start_datetime
              end_datetime players limit page) as [result|e] eqn:Hget.
  - left. eauto.
  - right. unfold get_available_times in Hget.
    by rewrite (list_sort_Raise TeeTime.from_time _ _ Hget).
Qed.

(** X11.  [get_available_times] raises [TypeError] exactly when at least two
    tee times were collected and their start times are not all of one kind
    (all aware, or all naive): some start time is missing, or aware and
    naive start times are mixed (line 237). *)
Theorem raises_iff_incomparable_start_times client_get course_uuids
    start_datetime end_datetime players limit page :
  let all_tee_times :=
    collect_tee_times client_get course_uuids start_datetime end_datetime
      players limit page in
  get_available_times client_get course_uuids start_datetime end_datetime
    players limit page = Raise TypeError
  ↔ (2 ≤ length all_tee_times)%nat
    ∧ ¬ ∃ k, Forall (λ t, kind_of (TeeTime.from_time t) = Some k) all_tee_times.
Proof.
  cbv zeta. unfold get_available_times.
  pose proof (collect_tee_times_fixed client_get course_uuids start_datetime
                end_datetime players limit page) as Hfixed.
  set (all_tee_times := collect_tee_times _ _ _ _ _ _ _) in *.
  split.
  - intros Hraise. split.
    + destruct all_tee_times as [|a [|b l]]; simpl in *; [done|done|lia].
    + intros [k Hk].
      rewrite (list_sort_same_kind TeeTime.from_time k) in Hraise; [done|].
      rewrite Forall_forall in *. split; auto.
  - intros [Hlen Hkind].
    destruct (list_sort optional_datetime_lt TeeTime.from_time all_tee_times)
      as [result|e] eqn:Hsort.
    + destruct (list_sort_Ok_kind _ _ _ Hsort) as [Hle | Hk]; [lia | done].
    + by rewrite (list_sort_Raise TeeTime.from_time _ _ Hsort).
Qed.

End MoreAggregationFacts.

(** ** [get_courses_by_criteria] *)

Section SelectionFacts.
Context `{StrMethods}.

Lemma unique_courses_sublist seen l : unique_courses seen l `sublist_of` l.
Proof.
  revert seen. induction l as [|c l IH]; intros seen; simpl; [done|].
  case_decide; [by apply sublist_cons | by apply sublist_skip].
Qed.

Lemma unique_courses_fresh seen l c :
  c ∈ unique_courses seen l → Course.id c ∉ seen.
Proof.
  revert seen. induction l as [|c0 l IH]; intros seen; simpl; [by intros ?%elem_of_nil|].
  case_decide as Hseen; [apply IH|].
  intros [->|Hin]%elem_of_cons; [done|].
  apply IH in Hin. intros Hs. apply Hin, elem_of_union. by right.
Qed.

Lemma unique_courses_NoDup seen l : NoDup (map Course.id (unique_courses seen l)).
Proof.
  revert seen. induction l as [|c l IH]; intros seen; simpl; [constructor|].
  case_decide as Hseen; [apply IH|]. simpl. constructor; [|apply IH].
  intros (c' & Hid & Hin)%list_elem_of_fmap.
  apply unique_courses_fresh in Hin. apply Hin, elem_of_union. left.
  by apply elem_of_singleton.
Qed.

Lemma unique_courses_complete seen l c :
  c ∈ l → Course.id c ∉ seen →
  ∃ c', c' ∈ unique_courses seen l ∧ Course.id c' = Course.id c.
Proof.
  revert seen. induction l as [|c0 l IH]; intros seen; [by intros ?%elem_of_nil|].
  simpl. intros [->|Hin]%elem_of_cons Hfresh.
  - case_decide; [done|]. exists c0. split; [left|done].
  - case_decide as Hseen; [by apply IH|].
    destruct (decide (Course.id c = Course.id c0)) as [Heq|Hne].
    + exists c0. split; [left|done].
    + destruct (IH ({[Course.id c0]} ∪ seen) Hin) as (c' & Hc' & Hid).
      { intros [Heq%elem_of_singleton|Hs]%elem_of_union; done. }
      exists c'. split; [by right|done].
Qed.

Lemma unique_courses_distinct seen l :
  NoDup (map Course.id l) → (∀ c, c ∈ l → Course.id c ∉ seen) →
  unique_courses seen l = l.
Proof.
  revert seen. induction l as [|c l IH]; intros seen; simpl; [done|].
  intros [Hc Hl]%NoDup_cons Hfresh.
  case_decide as Hseen; [by destruct (Hfresh c); [left|]|].
  f_equal. apply IH; [done|]. intros c' Hc'.
  assert (Course.id c' ≠ Course.id c).
  { intros Heq. apply Hc. rewrite <- Heq. apply list_elem_of_fmap. eauto. }
  specialize (Hfresh c' ltac:(by right)).
  intros [Heq%elem_of_singleton|Hs]%elem_of_union; done.
Qed.

Lemma found_by_id_elem all_golfstar_courses course_id c :
  c ∈ found_by_id all_golfstar_courses course_id →
  c ∈ all_golfstar_courses ∧ Course.id c = course_id.
Proof.
  unfold found_by_id.
  destruct (find _ _) as [c'|] eqn:Hfind; [|by intros ?%elem_of_nil].
  intros ->%list_elem_of_singleton. apply find_some in Hfind as [Hin Hid].
  split; [by apply list_elem_of_In | by apply Z.eqb_eq].
Qed.

Lemma found_by_id_exists all_golfstar_courses course_id c :
  c ∈ all_golfstar_courses → Course.id c = course_id →
  ∃ c', found_by_id all_golfstar_courses course_id = [c'] ∧ Course.id c' = course_id.
Proof.
  intros Hin Hid. unfold found_by_id.
  destruct (find _ _) as [c'|] eqn:Hfind.
  - apply find_some in Hfind as [_ Hid']. apply Z.eqb_eq in Hid'. eauto.
  - apply list_elem_of_In in Hin.
    pose proof (find_none _ _ Hfind _ Hin) as Hno. simpl in Hno.
    apply Z.eqb_neq in Hno. done.
Qed.

(** X12.  Every course that [get_courses_by_criteria] returns is a course of
    the catalog, and unless all courses were asked for no two of the
    returned courses have the same id (lines 213-252). *)
Theorem selection_from_catalog_without_duplicates all_golfstar_courses course_ids
    course_names all_courses :
  let courses :=
    get_courses_by_criteria all_golfstar_courses course_ids course_names
      all_courses in
  (∀ c, c ∈ courses → c ∈ all_golfstar_courses)
  ∧ (all_courses = false → NoDup (map Course.id courses)).
Proof.
  cbv zeta. unfold get_courses_by_criteria. destruct all_courses; [done|].
  split; [|intros _; apply unique_courses_NoDup].
  intros c Hc. eapply elem_of_sublist in Hc; [|apply unique_courses_sublist].
  apply elem_of_app in Hc as [Hc|Hc]; apply list_elem_of_In, in_flat_map in Hc
    as (x & _ & Hc); apply list_elem_of_In in Hc.
  - by apply (found_by_id_elem _ x).
  - by apply list_elem_of_filter in Hc as [_ Hc].
Qed.

(** X13.  A course of the catalog whose id was requested, or whose
    lower-cased name contains a lower-cased requested name, is represented
    in the selection: the selection has a course with its id (lines
    221-252). *)
Theorem requested_courses_are_selected all_golfstar_courses course_ids
    course_names c :
  c ∈ all_golfstar_courses →
  Course.id c ∈ if_given course_ids
  ∨ (∃ name_query, name_query ∈ if_given course_names
       ∧ is_infix (str_lower name_query) (str_lower (Course.name c)) = true) →
  ∃ c', c' ∈ get_courses_by_criteria all_golfstar_courses course_ids
               course_names false
        ∧ Course.id c' = Course.id c.
Proof.
  intros Hc Hreq. unfold get_courses_by_criteria.
  assert (∃ c', c' ∈ flat_map
                   (λ course_id,
                      match find (λ c, Course.id c =? course_id) all_golfstar_courses with
                      | Some course => [course]
                      | None => []
                      end) (if_given course_ids)
                 ++ flat_map
                      (λ name_query,
                         filter (λ c, Is_true (is_infix (str_lower name_query)
                                                 (str_lower (Course.name c))))
                                all_golfstar_courses) (if_given course_names)
               ∧ Course.id c' = Course.id c) as (c' & Hc' & Hid).
  { destruct Hreq as [Hid | (q & Hq & Hmatch)].
    - destruct (found_by_id_exists _ _ c Hc eq_refl) as (c' & Hfound & Hid').
      exists c'. split; [|done]. apply elem_of_app. left.
      apply list_elem_of_In, in_flat_map. exists (Course.id c).
      split; [by apply list_elem_of_In|].
      fold (found_by_id all_golfstar_courses (Course.id c)). rewrite Hfound. by left.
    - exists c. split; [|done]. apply elem_of_app. right.
      apply list_elem_of_In, in_flat_map. exists q.
      split; [by apply list_elem_of_In|].
      apply list_elem_of_In, list_elem_of_filter. split; [|done].
      by apply Is_true_true. }
  destruct (unique_courses_complete ∅ _ c' Hc') as (c'' & Hc'' & Hid'');
    [apply not_elem_of_empty|].
  exists c''. split; [done|congruence].
Qed.

(** X14.  A requested id that no course of the catalog has changes nothing
    but the warning: the selection is the one made without that id (lines
    222-229). *)
Theorem unknown_id_ignored all_golfstar_courses ids_before unknown ids_after
    course_names all_courses :
  Forall (λ c, Course.id c ≠ unknown) all_golfstar_courses →
  get_courses_by_criteria all_golfstar_courses
    (Some (ids_before ++ unknown :: ids_after)) course_names all_courses
  = get_courses_by_criteria all_golfstar_courses
      (Some (ids_before ++ ids_after)) course_names all_courses.
Proof.
  intros Hunknown. unfold get_courses_by_criteria, if_given.
  destruct all_courses; [done|].
  rewrite !flat_map_app. simpl.
  destruct (find _ all_golfstar_courses) as [c|] eqn:Hfind; [|done].
  apply find_some in Hfind as [Hin Hid]. apply Z.eqb_eq in Hid.
  rewrite Forall_forall in Hunknown. apply list_elem_of_In in Hin.
  by destruct (Hunknown c Hin).
Qed.

(** X15.  When only ids are requested, they are distinct, and each is the id
    of a course of the catalog, the ids of the selected courses are the
    requested ids in the requested order. *)
Theorem distinct_ids_selected_in_order all_golfstar_courses course_ids :
  NoDup course_ids →
  Forall (λ course_id, ∃ c, c ∈ all_golfstar_courses ∧ Course.id c = course_id)
         course_ids →
  map Course.id
    (get_courses_by_criteria all_golfstar_courses (Some course_ids) None false)
  = course_ids.
Proof.
  intros Hnodup Hall. unfold get_courses_by_criteria, if_given. simpl.
  rewrite app_nil_r.
  assert (map Course.id
            (flat_map
               (λ course_id,
                  match find (λ c, Course.id c =? course_id) all_golfstar_courses with
                  | Some course => [course]
                  | None => []
                  end) course_ids) = course_ids) as Hids.
  { induction Hall as [|i ids (c & Hc & Hid) Hall IH]; simpl; [done|].
    destruct (found_by_id_exists _ _ c Hc Hid) as (c' & Hfound & Hid').
    unfold found_by_id in Hfound. rewrite Hfound. simpl.
    apply NoDup_cons in Hnodup as [_ Hnodup]. by rewrite IH, Hid'. }
  rewrite unique_courses_distinct; [done| |intros; apply not_elem_of_empty].
  by rewrite Hids.
Qed.

End SelectionFacts.

(** ** More on the [availability] command *)

Section MoreCliFacts.
Context `{StrMethods} `{Pydantic} `{TzDatabase} `{DateParsers} `{ExceptionText}.

(** X16.  Whatever [parse_datetime_arg] returns is aware (lines 186-187 and
    198), so the comparison of two parsed bounds on line 524 never
    raises. *)
Theorem parsed_bounds_compare start end_ default_start default_end start_dt end_dt :
  parse_datetime_arg start default_start = Some start_dt →
  parse_datetime_arg end_ default_end = Some end_dt →
  is_Some (tz start_dt) ∧ is_Some (tz end_dt)
  ∧ ∃ before, datetime_lt end_dt start_dt = Ok before.
Proof.
  intros Hs He.
  apply parse_datetime_arg_aware in Hs, He.
  repeat split; [done|done|]. by apply datetime_lt_aware.
Qed.

Lemma datetime_lt_mixed a b :
  is_Some (tz a) → tz b = None →
  datetime_lt a b = Raise TypeError ∧ datetime_lt b a = Raise TypeError.
Proof. intros [z Ha] Hb. unfold datetime_lt. by rewrite Ha, Hb. Qed.

(** X17.  With a selection of courses and exactly one of [--start] and
    [--end] given (and parsed), [availability] sends no request and ends
    with an uncaught [TypeError]: the parsed bound is aware and the default
    of the other is naive (lines 512-524), outside every [try]. *)
Theorem single_bound_raises_TypeError today get_courses client_get course_ids
    course_names all_courses start end_ players :
  given course_ids || given course_names || all_courses = true →
  (∃ s dt, given_str start = Some s ∧ given_str end_ = None
           ∧ parse_datetime_arg s (Some time_min) = Some dt)
  ∨ (∃ e dt, given_str start = None ∧ given_str end_ = Some e
             ∧ parse_datetime_arg e (Some time_23_59_59) = Some dt) →
  availability today get_courses client_get course_ids course_names all_courses
    start end_ players
  = ([], Uncaught TypeError).
Proof.
  intros Hsel Hone. unfold availability. rewrite Hsel. simpl.
  destruct Hone as [(s & dt & -> & -> & Hparse) | (e & dt & -> & -> & Hparse)];
    rewrite Hparse; apply parse_datetime_arg_aware in Hparse.
  - by rewrite (proj2 (datetime_lt_mixed dt
                         (datetime_combine (datetime_date dt) time_23_59_59)
                         Hparse eq_refl)).
  - by rewrite (proj1 (datetime_lt_mixed dt (datetime_combine today time_min)
                         Hparse eq_refl)).
Qed.

(** X18.  With a selection of courses and neither [--start] nor [--end],
    the default window (today from 00:00:00 to 23:59:59) passes the check
    of line 524 and the catalog is requested. *)
Theorem default_day_is_accepted today get_courses client_get course_ids
    course_names all_courses start end_ players :
  given course_ids || given course_names || all_courses = true →
  given_str start = None → given_str end_ = None →
  ∃ sent outcome,
    availability today get_courses client_get course_ids course_names
      all_courses start end_ players
    = (GetCourses :: sent, outcome).
Proof.
  intros Hsel Hs He. unfold availability. rewrite Hsel, Hs, He.
  cbn [negb]. cbv beta iota.
  assert (datetime_lt
            (datetime_combine (datetime_date (datetime_combine today time_min))
               time_23_59_59)
            (datetime_combine today time_min) = Ok false) as ->.
  { unfold datetime_lt, datetime_combine, datetime_date, time_min,
      time_23_59_59, microseconds_per_day. simpl. f_equal.
    rewrite Z.add_0_r, Z.div_mul by done. apply Z.ltb_ge. lia. }
  repeat case_match; eexists _, _; reflexivity.
Qed.

Lemma query_course_agree client_get client_get' players all_tee_times params :
  client_get params = client_get' params →
  query_course client_get players all_tee_times params
  = query_course client_get' players all_tee_times params.
Proof. intros Hq. unfold query_course, fetch_items. by rewrite Hq. Qed.

(** X19.  [get_available_times] depends on the server only through its
    answers to the tee-time queries of the requested courses, one for each
    course uuid with the window, the number of players, the limit and the
    page of the call: two servers that agree on these queries give the same
    result, whatever they answer to any other query (client.py lines
    161-173). *)
Theorem result_determined_by_requested_queries client_get client_get'
    course_uuids start_datetime end_datetime players limit page :
  (∀ course_uuid, course_uuid ∈ course_uuids →
     client_get (tee_times_params start_datetime end_datetime players limit page
                   course_uuid)
     = client_get' (tee_times_params start_datetime end_datetime players limit
                      page course_uuid)) →
  get_available_times client_get course_uuids start_datetime end_datetime
    players limit page
  = get_available_times client_get' course_uuids start_datetime end_datetime
      players limit page.
Proof.
  intros Hagree. unfold get_available_times, collect_tee_times. f_equal.
  generalize (@nil TeeTime.t).
  induction course_uuids as [|u us IH]; intros acc; simpl; [done|].
  rewrite (query_course_agree client_get client_get') by (apply Hagree; left).
  apply IH. intros u' Hu'. apply Hagree. by right.
Qed.

Lemma fetch_and_enrich_raises client_get course_uuids start_datetime end_datetime
    players limit page (course_map : gmap string Course.t) e :
  get_available_times client_get course_uuids start_datetime end_datetime
    players limit page
  ≫= (λ tee_times, map_all_course_info course_map tee_times) = Raise e →
  e = TypeError.
Proof.
  destruct (get_available_times _ _ _ _ _ _ _) as [tee_times|e'] eqn:Hget;
    cbn [mbind Exc_bind].
  - destruct (map_all_course_info_Ok course_map tee_times) as (enriched & -> & _).
    done.
  - intros [= <-]. unfold get_available_times in Hget.
    by apply (list_sort_Raise TeeTime.from_time _ _ Hget).
Qed.

(** X20.  Provided the bounds that are given convert to UTC and the text of
    a [TypeError] mentions neither "401" nor "JWT", no run of
    [availability] that exits prints the notice that authorization is
    required (lines 592-606): with such bounds the only exception that
    reaches that handler is the [TypeError] of the sort.  (A bound that
    does not convert brings an [OverflowError] to the handler instead.) *)
Theorem authorization_notice_never_printed today get_courses client_get
    course_ids course_names all_courses start end_ players code printed :
  (∀ s default_time dt,
     start = Some s ∨ end_ = Some s →
     parse_datetime_arg s default_time = Some dt → converts_to_utc dt) →
  is_infix "401" (exn_str TypeError) = false →
  is_infix "JWT" (exn_str TypeError) = false →
  (availability today get_courses client_get course_ids course_names
     all_courses start end_ players).2 = Exit code printed →
  AuthorizationRequired ∉ printed.
Proof.
  intros _ H401 HJWT. unfold availability.
  repeat case_match; simpl; try done; intros [= <- <-] Hin;
    try (repeat (apply elem_of_cons in Hin as [Hin|Hin]; [discriminate|]);
         by apply elem_of_nil in Hin).
  all: match goal with
       | Hraise : _ ≫= _ = Raise ?e |- _ =>
           apply fetch_and_enrich_raises in Hraise; subst e
       end.
  all: match goal with
       | Hor : _ || _ = true |- _ => by rewrite H401, HJWT in Hor
       end.
Qed.

Lemma enrichment_keeps_order (course_map : gmap string Course.t) tee_times enriched :
  map_all_course_info course_map tee_times = Ok enriched →
  StronglySorted starts_no_later tee_times →
  StronglySorted starts_no_later enriched.
Proof.
  intros Hmap.
  destruct (map_all_course_info_Ok course_map tee_times) as (enriched' & He & Hall).
  rewrite Hmap in He. injection He as <-.
  assert (Forall2 (λ t t', TeeTime.from_time t' = TeeTime.from_time t)
            tee_times enriched) as Hfrom.
  { eapply Forall2_impl; [exact Hall|]. simpl. intros t t'.
    rewrite map_course_info_Ok. intros [= <-]. by repeat case_match. }
  clear Hall Hmap. induction Hfrom as [|t t' l l' Ht Hl IH]; [done|].
  intros [Hs Hhd]%StronglySorted_inv. constructor; [by apply IH|].
  clear IH Hs. induction Hl as [|u u' l l' Hu Hl IH]; [done|].
  apply Forall_cons in Hhd as [Hhd Htl]. constructor; [|by apply IH].
  unfold starts_no_later in *. by rewrite Ht, Hu.
Qed.

(** X21.  The tee times that [availability] hands to the display are in
    nondecreasing order of start time: the enrichment of lines 574-591
    keeps the order in which [get_available_times] returned them. *)
Theorem displayed_sorted_by_start_time today get_courses client_get course_ids
    course_names all_courses start end_ players tee_times :
  (availability today get_courses client_get course_ids course_names
     all_courses start end_ players).2 = Display tee_times →
  StronglySorted starts_no_later tee_times.
Proof.
  unfold availability.
  repeat case_match; simpl; try done.
  all: intros [= <-].
  all: match goal with
       | Hok : _ ≫= _ = Ok _ |- _ => apply bind_Ok in Hok as (result & Hget & Hmap)
       end.
  all: eapply enrichment_keeps_order; [done|].
  all: unfold get_available_times in Hget.
  all: eapply (list_sort_sorted TeeTime.from_time); [|done].
  all: apply collect_tee_times_fixed.
Qed.

(** X22.  After the enrichment over a course map keyed by uuid, every tee
    time whose course uuid is a key of the map carries the id, uuid, name
    and club name of the course found under that key (lines 574-591). *)
Theorem enriched_with_full_course (course_map : gmap string Course.t) tee_times
    enriched :
  keyed_by_uuid course_map →
  map_all_course_info course_map tee_times = Ok enriched →
  ∀ tee_time course_uuid course,
    tee_time ∈ enriched →
    found_course_uuid tee_time = Some course_uuid →
    course_map !! course_uuid = Some course →
    TeeTime.course tee_time = Some (course_projection course).
Proof.
  intros Hkeyed Hmap tee_time u course Hin Hfound Hlookup.
  pose proof (map_all_course_info_idempotent _ _ _ Hkeyed Hmap) as Hidem.
  destruct (map_all_course_info_Ok course_map enriched) as (again & Ha & Hall).
  rewrite Hidem in Ha. injection Ha as <-.
  assert (map_course_info course_map tee_time = Ok tee_time) as Hfix.
  { clear -Hall Hin. induction enriched as [|t l IH]; [by apply elem_of_nil in Hin|].
    apply Forall2_cons in Hall as [Ht Hl].
    apply elem_of_cons in Hin as [->|Hin]; [done | by apply IH]. }
  rewrite map_course_info_Ok, Hfound, Hlookup in Hfix.
  injection Hfix as Hfix. by rewrite <- Hfix.
Qed.

End MoreCliFacts.

Section WindowFacts.
Context `{StrMethods} `{Pydantic} `{TzDatabase} `{DateParsers} `{ExceptionText}.

Lemma datetime_lt_irrefl dt : is_Some (tz dt) → datetime_lt dt dt = Ok false.
Proof.
  intros [z Hz]. unfold datetime_lt. rewrite Hz.
  rewrite decide_True by done. by rewrite Z.ltb_irrefl.
Qed.

Lemma parse_datetime_arg_dateutil date_str default_time dt :
  dateutil_parse date_str = Some dt →
  parse_datetime_arg date_str default_time
  = Some match tz dt with
         | None => replace_tzinfo dt stockholm_tz
         | Some _ => dt
         end.
Proof. unfold parse_datetime_arg. intros ->. by destruct (tz dt). Qed.

(** X23.  When [--start] and [--end] are the same text and [dateutil]
    parses it, the check of line 524 passes and every tee-time request
    asks for a window whose two ends are equal: the default time 23:59:59
    of the end is used only when [dateutil] fails (lines 182-196). *)
Theorem same_bounds_give_empty_window today get_courses client_get course_ids
    course_names all_courses s dt players :
  given course_ids || given course_names || all_courses = true →
  s ≠ "" →
  dateutil_parse s = Some dt →
  ∃ sent outcome,
    availability today get_courses client_get course_ids course_names
      all_courses (Some s) (Some s) players
    = (GetCourses :: sent, outcome)
    ∧ Forall empty_window sent.
Proof.
  intros Hsel Hs Hparse. unfold availability. rewrite Hsel.
  cbn [negb given_str]. destruct (String.eqb_spec s ""); [done|].
  rewrite !(parse_datetime_arg_dateutil s _ dt Hparse).
  rewrite datetime_lt_irrefl by (destruct (tz dt) eqn:Htz; simpl; eauto).
  assert (∀ d (us : list string),
            Forall empty_window
              (map (λ u, GetTeeTimes (tee_times_params d d players 100 1 u)) us))
    as Hempty.
  { intros d us. apply Forall_forall. intros r (u & -> & _)%list_elem_of_fmap. done. }
  repeat case_match; eexists _, _; (split; [reflexivity|]);
    try apply Forall_nil_2; apply Hempty.
Qed.

End WindowFacts.

(** ** Display helpers, grouping and the catalog *)

Section DisplayFacts.
Context `{TzDatabase} `{ZoneFromUtc} `{DecimalText}.

(** X24.  [time_display] is "N/A" exactly for a tee time without start
    time (teetime.py lines 74-88). *)
Theorem time_display_not_available tee_time :
  time_display tee_time = "N/A" ↔ TeeTime.from_time tee_time = None.
Proof.
  unfold time_display. destruct (TeeTime.from_time tee_time) as [dt|]; [|done].
  split; [|done]. unfold strftime_HM, two_digits.
  cbv [String.append]. discriminate.
Qed.

(** X25.  Provided the zone UTC has offset 0, two tee times whose start
    times are the same instant have the same [time_display], a naive start
    time being read as UTC; start times already in the Stockholm zone
    object are left out, since [astimezone] returns those unchanged. *)
Theorem time_display_by_instant a b from_a from_b :
  (∀ w, zone_utcoffset "UTC" w = 0) →
  TeeTime.from_time a = Some from_a → TeeTime.from_time b = Some from_b →
  tz from_a ≠ Some stockholm_tz → tz from_b ≠ Some stockholm_tz →
  rank_of (Some from_a) = rank_of (Some from_b) →
  time_display a = time_display b.
Proof.
  intros Hutc Ha Hb Hza Hzb Hrank. unfold time_display. rewrite Ha, Hb.
  f_equal. unfold rank_of in Hrank. unfold astimezone.
  destruct (tz from_a) as [za|], (tz from_b) as [zb|];
    repeat case_decide; try congruence; simpl; rewrite ?Hutc, ?Z.sub_0_r;
    by rewrite Hrank || by rewrite <- Hrank.
Qed.

(** X26.  When a record becomes a tee time and its [price] object has a
    non-empty string [formatted], [price_display] of the tee time is that
    string (client.py lines 213-214, teetime.py lines 95-99). *)
Theorem formatted_price_displayed `{StrMethods} `{Pydantic} course_uuid players
    item price formatted tee_time :
  parse_tee_time course_uuid players (VDict item) = Ok (Some tee_time) →
  dict_lookup "price" item = Some (VDict price) →
  dict_lookup "formatted" price = Some (VStr formatted) →
  formatted ≠ "" →
  price_display tee_time = formatted.
Proof.
  intros Hp Hprice Hformatted Hne.
  destruct (parse_tee_time_price _ _ _ _ _ Hp Hprice) as (money & Hmoney & Hfield).
  unfold price_display. rewrite Hfield.
  unfold Money_init in Hmoney. invert_binds. injection Hmoney as <-. simpl.
  match goal with Hu : optional_field _ _ "formatted" _ = Ok _ |- _ =>
    unfold optional_field, optional_value, validated in Hu;
    rewrite Hformatted, validate_str_str in Hu; injection Hu as <-
  end.
  simpl. by destruct (String.eqb_spec formatted "").
Qed.

End DisplayFacts.

Section GroupingFacts.
Context `{TzDatabase}.

Lemma group_get_append name k t grouped :
  group_get name (group_append k t grouped)
  = if String.eqb name k then group_get name grouped ++ [t]
    else group_get name grouped.
Proof.
  induction grouped as [|[k' l] grouped IH]; simpl.
  - by destruct (String.eqb name k).
  - destruct (String.eqb_spec k k') as [->|Hk]; simpl.
    + by destruct (String.eqb name k').
    + destruct (String.eqb_spec name k') as [->|Hn]; [|done].
      by destruct (String.eqb_spec k' k).
Qed.

Lemma group_append_keys k t grouped :
  map fst (group_append k t grouped)
  = map fst grouped ++ (if decide (k ∈ map fst grouped) then [] else [k]).
Proof.
  induction grouped as [|[k' l] grouped IH]; cbn [group_append map fst].
  - destruct (decide (k ∈ [])) as [Hin|_]; [by apply elem_of_nil in Hin | done].
  - destruct (String.eqb_spec k k') as [->|Hk]; cbn [map fst].
    + rewrite decide_True by left. by rewrite app_nil_r.
    + rewrite IH. cbn [app]. f_equal.
      destruct (decide (k ∈ map fst grouped)) as [Hin|Hnot].
      * rewrite decide_True; [done | by right].
      * rewrite decide_False; [done|].
        by intros [?|?]%elem_of_cons.
Qed.

Lemma group_all_snoc tee_times t :
  group_all (tee_times ++ [t]) = group_append (course_key t) t (group_all tee_times).
Proof. unfold group_all. by rewrite foldl_app. Qed.

Lemma group_all_get name tee_times :
  group_get name (group_all tee_times)
  = filter (λ t, course_key t = name) tee_times.
Proof.
  induction tee_times as [|t tee_times IH] using rev_ind; [done|].
  rewrite group_all_snoc, group_get_append, filter_app, IH.
  rewrite filter_cons, filter_nil.
  destruct (String.eqb_spec name (course_key t)) as [->|Hne].
  - by rewrite decide_True.
  - rewrite decide_False by done. by rewrite app_nil_r.
Qed.

Lemma group_all_keys tee_times : NoDup (map fst (group_all tee_times)).
Proof.
  induction tee_times as [|t tee_times IH] using rev_ind; [constructor|].
  rewrite group_all_snoc, group_append_keys.
  case_decide as Hin; [by rewrite app_nil_r|].
  apply NoDup_app. split; [done|]. split; [|apply NoDup_singleton].
  intros k Hk ->%list_elem_of_singleton. done.
Qed.

Lemma group_all_entries tee_times k l :
  (k, l) ∈ group_all tee_times → l = group_get k (group_all tee_times).
Proof.
  pose proof (group_all_keys tee_times) as Hnodup.
  induction (group_all tee_times) as [|[k' l'] grouped IH]; [by intros ?%elem_of_nil|].
  simpl in *. apply NoDup_cons in Hnodup as [Hk' Hnodup].
  intros [[= -> ->]|Hin]%elem_of_cons.
  - by rewrite String.eqb_refl.
  - destruct (String.eqb_spec k k') as [->|Hne]; [|by apply IH].
    destruct Hk'. apply list_elem_of_fmap. by exists (k', l).
Qed.

Lemma StronglySorted_filter_keep {A} (R : A → A → Prop) (P : A → Prop)
    `{∀ a, Decision (P a)} (l : list A) :
  StronglySorted R l → StronglySorted R (filter P l).
Proof.
  induction 1 as [|x l Hs IH Hall]; [constructor|].
  rewrite filter_cons. case_decide; [|done].
  constructor; [done|].
  rewrite Forall_forall in *. intros y [_ Hy]%list_elem_of_filter. by apply Hall.
Qed.

Lemma list_sort_of_sorted (l : list TeeTime.t) :
  StronglySorted starts_no_later l →
  list_sort datetime_lt from_time_or_min l = Ok l.
Proof.
  induction 1 as [|x l Hs IH Hall]; simpl; [done|].
  rewrite IH. simpl. destruct l as [|y l]; [done|]. simpl.
  apply Forall_cons in Hall as [Hxy _].
  unfold starts_no_later, key_le, optional_datetime_lt in Hxy.
  unfold from_time_or_min.
  destruct (TeeTime.from_time y), (TeeTime.from_time x); try done.
  by rewrite Hxy.
Qed.

Lemma sort_groups_sorted grouped :
  Forall (λ kl, StronglySorted starts_no_later kl.2) grouped →
  sort_groups grouped = Ok grouped.
Proof.
  induction 1 as [|[k l] grouped Hl Hall IH]; simpl; [done|].
  by rewrite (list_sort_of_sorted l Hl), IH.
Qed.

(** X27.  On a list in nondecreasing order of start time,
    [format_availability_by_course] returns; no key occurs twice, and under
    every name stand exactly the tee times of that course name, in the
    order of the list (app.py lines 255-269). *)
Theorem grouping_of_sorted tee_times :
  StronglySorted starts_no_later tee_times →
  ∃ groups,
    format_availability_by_course tee_times = Ok groups
    ∧ NoDup (map fst groups)
    ∧ ∀ name, group_get name groups
              = filter (λ t, course_key t = name) tee_times.
Proof.
  intros Hsorted. exists (group_all tee_times).
  split; [|split; [apply group_all_keys | intros name; apply group_all_get]].
  unfold format_availability_by_course. fold (group_all tee_times).
  apply sort_groups_sorted, Forall_forall. intros [k l] Hin. simpl.
  rewrite (group_all_entries _ _ _ Hin), group_all_get.
  by apply StronglySorted_filter_keep.
Qed.

End GroupingFacts.

Section CatalogFacts.

Lemma comprehension_Ok {A B} (f : A → Exc B) l r :
  comprehension f l = Ok r ↔ Forall2 (λ x y, f x = Ok y) l r.
Proof.
  revert r. induction l as [|x l IH]; intros r; cbn [comprehension].
  - split; [intros [= <-]; constructor | by intros ->%Forall2_nil_inv_l].
  - split.
    + intros (y & Hy & (ys & Hys & ->)%fmap_Ok)%bind_Ok.
      constructor; [done | by apply IH].
    + intros (y & ys & Hy & Hys & ->)%Forall2_cons_inv_l.
      rewrite Hy. cbn [mbind Exc_bind]. apply IH in Hys. by rewrite Hys.
Qed.

(** X28.  When [/courses] answers 200 with a JSON array, [get_courses]
    returns a list exactly when [Course] accepts every record, and the list
    is then the courses of the records, one for one and in order (lines
    105-110). *)
Theorem catalog_all_or_nothing client_get Course_of club_id order_by
    order_direction search limit page records courses :
  client_get (courses_params club_id order_by order_direction search limit page)
  = Ok {| Response.status_code := 200; Response.json := Ok (VList records) |} →
  get_courses client_get Course_of club_id order_by order_direction search limit
    page = Ok courses
  ↔ Forall2 (λ record course, Course_of record = Ok course) records courses.
Proof.
  intros Hget. unfold get_courses. rewrite Hget.
  cbn [mbind Exc_bind raise_for_status Response.status_code Response.json
       iterate Z.leb Z.compare Pos.compare Pos.compare_cont andb].
  rewrite <- comprehension_Ok.
  destruct (comprehension Course_of records) as [cs|e]; [done|].
  by destruct (is_HTTPError e).
Qed.

(** X29.  [get_courses] raises again what went wrong with the request: an
    exception of the transport, or the status error of an answer outside
    200-299 (lines 105-117); unlike [get_available_times] it does not
    swallow it. *)
Theorem catalog_error_propagates client_get Course_of club_id order_by
    order_direction search limit page e :
  client_get (courses_params club_id order_by order_direction search limit page)
  = Raise e
  ∨ (∃ response,
       client_get (courses_params club_id order_by order_direction search limit
                     page) = Ok response
       ∧ (Response.status_code response < 200 ∨ 299 < Response.status_code response)
       ∧ e = HTTPStatusError (Response.status_code response)) →
  get_courses client_get Course_of club_id order_by order_direction search limit
    page = Raise e.
Proof.
  intros [He | (response & Hget & Hcode & ->)]; unfold get_courses.
  - rewrite He. simpl. by destruct (is_HTTPError e).
  - unfold raise_for_status. rewrite Hget. simpl.
    destruct (Z.leb_spec 200 (Response.status_code response)),
      (Z.leb_spec (Response.status_code response) 299); simpl; done || lia.
Qed.

End CatalogFacts.

(** ** Closed instances *)

Import Reference Examples.

(** C1.  A course answered with HTTP 401 is passed over like any failing
    course: [get_available_times] returns the records of the other course
    (and the empty list when there is no other), nothing is raised, and the
    command displays the result instead of the authorization notice. *)
Theorem unauthorized_course_skipped :
  get_available_times unauthorized_server ["A"; "B"] day_start day_end 1 100 1
  = Ok [tee_time "b1" (Some (utc eight)) 4 (partial_course "B")]
  ∧ get_available_times unauthorized_server ["A"] day_start day_end 1 100 1 = Ok []
  ∧ snd (availability 20103 (Ok [course_a; course_b]) unauthorized_server
           None None true (Some "2025-01-15") (Some "2025-01-16") 1)
    = Display [tee_time "b1" (Some (utc eight)) 4 (full_course course_b)].
Proof. repeat split; vm_compute; reflexivity. Qed.

(** The slip behind C3 also loses ordinary records: one whose category has
    a null description raises in [is_competition_time] and is dropped. *)
Example null_description_record_dropped :
  get_available_times null_description_server ["A"] day_start day_end 1 100 1
  = Ok [].
Proof. vm_compute. reflexivity. Qed.

Lemma transport_failure_isolated_witness :
  get_available_times failing_server ["A"; "B"] day_start day_end 1 100 1
  = Ok [tee_time "b1" (Some (utc seven)) 2 (partial_course "B");
        tee_time "b2" (Some (utc eight)) 4 (partial_course "B");
        tee_time "b3" (Some (utc nine)) 1 (partial_course "B")].
Proof.
  etransitivity.
  - apply (transport_failure_isolated failing_server [] "A" ["B"] day_start
             day_end 1 100 1 TransportError).
    reflexivity.
  - vm_compute. reflexivity.
Defined.

Lemma too_few_slots_excluded_witness :
  parse_tee_time "A" 2 (slot "t2" "2025-01-15T08:00:00Z" 1) = Ok None
  ∧ foldl (append_tee_time "A" 2) []
      ([slot "t1" "2025-01-15T07:00:00Z" 2] ++
       slot "t2" "2025-01-15T08:00:00Z" 1 :: [slot "t3" "2025-01-15T09:00:00Z" 3])
    = foldl (append_tee_time "A" 2) []
        ([slot "t1" "2025-01-15T07:00:00Z" 2] ++ [slot "t3" "2025-01-15T09:00:00Z" 3]).
Proof.
  apply (too_few_slots_excluded "A" 2 _ (inject_Z 1)).
  - reflexivity.
  - reflexivity.
Defined.

Lemma result_sorted_by_start_time_witness :
  let result :=
    [tee_time "a2" (Some (utc seven)) 4 (partial_course "A");
     tee_time "b2" (Some (utc seven)) 4 (partial_course "B");
     tee_time "b1" (Some (utc eight)) 4 (partial_course "B");
     tee_time "a1" (Some (utc nine)) 4 (partial_course "A")] in
  let all_tee_times :=
    collect_tee_times two_course_server ["A"; "B"] day_start day_end 1 100 1 in
  get_available_times two_course_server ["A"; "B"] day_start day_end 1 100 1
  = Ok result
  ∧ StronglySorted starts_no_later result
  ∧ result ≡ₚ all_tee_times
  ∧ ∀ a, a ∈ all_tee_times →
      filter (λ b, Is_true (same_start a b)) result
      = filter (λ b, Is_true (same_start a b)) all_tee_times.
Proof.
  cbv zeta. split.
  - vm_compute. reflexivity.
  - apply (proj2 (result_sorted_by_start_time two_course_server ["A"; "B"]
                    day_start day_end 1 100 1)).
    vm_compute. reflexivity.
Defined.

Lemma unmatched_course_unchanged_witness :
  ∃ enriched,
    map_all_course_info (course_map_of [course_a])
      [tee_time "a1" (Some (utc seven)) 4 (partial_course "A");
       tee_time "b1" (Some (utc eight)) 4 (partial_course "B"); no_start]
    = Ok enriched
    ∧ Forall2 (λ t t',
                 t' = TeeTime.set_course t (TeeTime.course t')
                 ∧ (unmatched (course_map_of [course_a]) t → t' = t))
        [tee_time "a1" (Some (utc seven)) 4 (partial_course "A");
         tee_time "b1" (Some (utc eight)) 4 (partial_course "B"); no_start]
        enriched.
Proof. apply unmatched_course_unchanged. Defined.

Lemma envelope_shapes_witness :
  ∃ tee_time,
    get_available_times envelope_server ["A"] day_start day_end 2 100 1
    = Ok [tee_time]
    ∧ TeeTime.uuid tee_time = "t1".
Proof.
  destruct envelope_shapes as (_ & _ & _ & _ & Hexample).
  apply (Hexample envelope_server "A" day_start day_end 2 100 1 (utc seven)).
  - reflexivity.
  - lia.
  - reflexivity.
Defined.




Lemma missing_start_time_raises_witness :
  get_available_times missing_from_server ["A"] day_start day_end 1 100 1
  = Raise TypeError.
Proof.
  apply (missing_start_time_raises missing_from_server ["A"] day_start day_end
           1 100 1 no_start (tee_time "t1" (Some (utc seven)) 4 (partial_course "A"))).
  - apply list_elem_of_In. vm_compute. auto.
  - apply list_elem_of_In. vm_compute. auto.
  - reflexivity.
  - vm_compute. eauto.
Defined.

(** ** Closed instances for the rest of the program *)

Import ReferenceDisplay MoreExamples.

Lemma record_without_uuid_dropped_witness :
  foldl (append_tee_time "A" 1) []
    ([slot "t1" "2025-01-15T07:00:00Z" 2] ++ anonymous_slot :: [VStr "x"])
  = foldl (append_tee_time "A" 1) [] ([slot "t1" "2025-01-15T07:00:00Z" 2] ++ [VStr "x"]).
Proof. apply record_without_uuid_dropped. reflexivity. Defined.

Lemma record_with_scalar_price_dropped_witness :
  foldl (append_tee_time "A" 1) []
    ([slot "t1" "2025-01-15T07:00:00Z" 2] ++ VDict number_priced_slot :: [])
  = foldl (append_tee_time "A" 1) [] ([slot "t1" "2025-01-15T07:00:00Z" 2] ++ []).
Proof.
  apply (record_with_scalar_price_dropped "A" 1 number_priced_slot (VInt 350));
    reflexivity.
Defined.

Lemma price_object_parsed_witness :
  ∃ money,
    Money_init [("amount", VInt 350); ("currency", VStr "SEK");
                ("formatted", VStr "350 kr")] = Ok money
    ∧ TeeTime.price priced_tee_time = Some money.
Proof.
  apply (price_object_parsed "A" 1 priced_slot); reflexivity.
Defined.

Lemma formatted_price_displayed_witness : price_display priced_tee_time = "350 kr".
Proof.
  apply (formatted_price_displayed "A" 1 priced_slot
           [("amount", VInt 350); ("currency", VStr "SEK");
            ("formatted", VStr "350 kr")]);
    reflexivity || discriminate.
Defined.

Lemma course_reference_fallback_witness :
  TeeTime.course (tee_time "t1" (Some (utc seven)) 2 (partial_course "A"))
  = Some (partial_course "A").
Proof.
  apply (course_reference_fallback "A" 1
           [("uuid", VStr "t1"); ("from", VStr "2025-01-15T07:00:00Z");
            ("available_slots", VInt 2); ("max_slots", VInt 4)]).
  reflexivity.
Defined.

Lemma competition_record_dropped_witness :
  foldl (append_tee_time "A" 1) []
    ([slot "t1" "2025-01-15T07:00:00Z" 2] ++ VDict competition_slot :: [])
  = foldl (append_tee_time "A" 1) [] ([slot "t1" "2025-01-15T07:00:00Z" 2] ++ []).
Proof. apply competition_record_dropped. reflexivity. Defined.

Lemma competition_iff_marker_witness :
  ∃ b, is_competition_time competition_slot = Ok b
       ∧ (b = true ↔ contains_marker (str_lower "")
                     ∨ contains_marker (str_lower "Tävling")).
Proof.
  apply (competition_iff_marker competition_slot [("custom_name", VStr "Tävling")]);
    reflexivity || discriminate.
Defined.

Lemma enough_slots_is_available_witness :
  TeeTime.available_slots priced_tee_time = Some 3
  ∧ 2 <= 3
  ∧ is_available priced_tee_time = true.
Proof.
  apply (enough_slots_is_available "A" 2 priced_slot); reflexivity || lia.
Defined.


Lemma requested_courses_are_selected_witness :
  ∃ c', c' ∈ get_courses_by_criteria [course_a; course_b; course_c]
               (Some [2]) (Some ["BROMMA"]) false
        ∧ Course.id c' = Course.id course_c.
Proof.
  apply requested_courses_are_selected.
  - apply list_elem_of_In. simpl. auto.
  - right. exists "BROMMA". split; [apply list_elem_of_In; simpl; auto | reflexivity].
Defined.

Lemma unknown_id_ignored_witness :
  get_courses_by_criteria [course_a; course_b] (Some ([1] ++ 99 :: [2])) None false
  = get_courses_by_criteria [course_a; course_b] (Some ([1] ++ [2])) None false.
Proof.
  apply unknown_id_ignored. repeat constructor; discriminate.
Defined.

Lemma distinct_ids_selected_in_order_witness :
  map Course.id
    (get_courses_by_criteria [course_a; course_b; course_c] (Some [3; 1]) None false)
  = [3; 1].
Proof.
  apply distinct_ids_selected_in_order.
  - apply NoDup_cons. split; [|apply NoDup_singleton].
    intros Hin%list_elem_of_singleton. discriminate.
  - repeat constructor; [exists course_c | exists course_a];
      (split; [apply list_elem_of_In; simpl; auto | reflexivity]).
Defined.

Lemma parsed_bounds_compare_witness :
  is_Some (tz {| wall := 1736928000000000; tz := Some stockholm_tz |})
  ∧ is_Some (tz {| wall := 1736899200000000; tz := Some stockholm_tz |})
  ∧ ∃ before,
      datetime_lt {| wall := 1736899200000000; tz := Some stockholm_tz |}
        {| wall := 1736928000000000; tz := Some stockholm_tz |} = Ok before.
Proof.
  apply (parsed_bounds_compare "2025-01-15 08:00" "2025-01-15" (Some time_min)
           (Some time_23_59_59)); reflexivity.
Defined.

Lemma single_bound_raises_TypeError_witness :
  availability 20103 (Ok [course_a; course_b]) two_course_server (Some [1]) None
    false (Some "2025-01-15") None 1
  = ([], Uncaught TypeError).
Proof.
  apply single_bound_raises_TypeError; [reflexivity|].
  left. exists "2025-01-15", {| wall := 1736899200000000; tz := Some stockholm_tz |}.
  repeat split; reflexivity.
Defined.

Lemma default_day_is_accepted_witness :
  ∃ sent outcome,
    availability 20103 (Ok [course_a; course_b]) two_course_server (Some [1]) None
      false None None 1
    = (GetCourses :: sent, outcome).
Proof. apply default_day_is_accepted; reflexivity. Defined.

Lemma authorization_notice_never_printed_witness :
  AuthorizationRequired ∉ [ErrorLine].
Proof.
  apply (authorization_notice_never_printed 20103 (Ok [course_a; course_b])
           missing_from_server (Some [1]) None false (Some "2025-01-15")
           (Some "2025-01-16") 1 1).
  - intros s default_time dt [[= <-]|[= <-]] [= <-]; vm_compute; split; discriminate.
  - reflexivity.
  - reflexivity.
  - reflexivity.
Defined.

Lemma displayed_sorted_by_start_time_witness :
  StronglySorted starts_no_later
    [tee_time "a2" (Some (utc seven)) 4 (full_course course_a);
     tee_time "b2" (Some (utc seven)) 4 (full_course course_b);
     tee_time "b1" (Some (utc eight)) 4 (full_course course_b);
     tee_time "a1" (Some (utc nine)) 4 (full_course course_a)].
Proof.
  apply (displayed_sorted_by_start_time 20103 (Ok [course_a; course_b])
           two_course_server None None true (Some "2025-01-15")
           (Some "2025-01-16") 1).
  vm_compute. reflexivity.
Defined.

Lemma enriched_with_full_course_witness :
  TeeTime.course (tee_time "a1" (Some (utc seven)) 4 (full_course course_a))
  = Some (course_projection course_a).
Proof.
  apply (enriched_with_full_course (course_map_of [course_a])
           [tee_time "a1" (Some (utc seven)) 4 (partial_course "A"); no_start]
           [tee_time "a1" (Some (utc seven)) 4 (full_course course_a);
            TeeTime.set_course no_start (Some (full_course course_a))])
    with (course_uuid := "A").
  - apply course_map_of_keyed.
  - vm_compute. reflexivity.
  - apply list_elem_of_In. simpl. auto.
  - reflexivity.
  - vm_compute. reflexivity.
Defined.

Lemma time_display_by_instant_witness :
  @time_display tz_database_utc zone_from_utc
    (tee_time "t1" (Some (utc seven)) 4 (partial_course "A"))
  = @time_display tz_database_utc zone_from_utc
      (tee_time "t2" (Some eight_plus_one) 4 (partial_course "A")).
Proof.
  apply (@time_display_by_instant tz_database_utc zone_from_utc _ _
           (utc seven) eight_plus_one);
    reflexivity || discriminate.
Defined.

Lemma grouping_of_sorted_witness :
  ∃ groups,
    format_availability_by_course
      [tee_time "a2" (Some (utc seven)) 4 (full_course course_a);
       tee_time "b2" (Some (utc seven)) 4 (full_course course_b);
       tee_time "b1" (Some (utc eight)) 4 (full_course course_b);
       tee_time "a1" (Some (utc nine)) 4 (full_course course_a)]
    = Ok groups
    ∧ NoDup (map fst groups)
    ∧ ∀ name,
        group_get name groups
        = filter (λ t, course_key t = name)
            [tee_time "a2" (Some (utc seven)) 4 (full_course course_a);
             tee_time "b2" (Some (utc seven)) 4 (full_course course_b);
             tee_time "b1" (Some (utc eight)) 4 (full_course course_b);
             tee_time "a1" (Some (utc nine)) 4 (full_course course_a)].
Proof.
  apply grouping_of_sorted.
  repeat (constructor; [|repeat constructor]); constructor.
Defined.

Lemma catalog_all_or_nothing_witness :
  get_courses (catalog_server 200) course_of_record None "name" "asc" None None None
  = Ok [course_a; course_b]
  ↔ Forall2 (λ record course, course_of_record record = Ok course)
      [course_record course_a; course_record course_b] [course_a; course_b].
Proof. apply catalog_all_or_nothing. reflexivity. Defined.

Lemma same_bounds_give_empty_window_witness :
  ∃ sent outcome,
    availability 20103 (Ok [course_a; course_b]) two_course_server (Some [1]) None
      false (Some "2025-01-15") (Some "2025-01-15") 1
    = (GetCourses :: sent, outcome)
    ∧ Forall empty_window sent.
Proof.
  apply (same_bounds_give_empty_window _ _ _ _ _ _ _
           {| wall := 1736899200000000; tz := None |});
    reflexivity || discriminate.
Defined.

Lemma catalog_error_propagates_witness :
  get_courses (catalog_server 401) course_of_record None "name" "asc" None None None
  = Raise (HTTPStatusError 401).
Proof.
  apply catalog_error_propagates. right.
  eexists. split; [reflexivity|]. split; [right; simpl; lia | reflexivity].
Defined.

Lemma returns_or_raises_TypeError_witness :
  (∃ result,
     get_available_times missing_from_server ["A"] day_start day_end 1 100 1
     = Ok result)
  ∨ get_available_times missing_from_server ["A"] day_start day_end 1 100 1
    = Raise TypeError.
Proof.
  apply returns_or_raises_TypeError; vm_compute; split; discriminate.
Defined.

Lemma result_determined_by_requested_queries_witness :
  get_available_times two_course_server ["A"; "B"] day_start day_end 1 100 1
  = get_available_times two_course_server_without_c ["A"; "B"] day_start day_end
      1 100 1.
Proof.
  apply result_determined_by_requested_queries.
  intros u Hu. repeat (apply elem_of_cons in Hu as [->|Hu]; [reflexivity|]).
  by apply elem_of_nil in Hu.
Defined.
